(** * edit-in-neovim: the process/session supervisor of [src/Neovim.ts]

    A shallow embedding of the [Neovim] class: its constructor (binary
    resolution), [getBuffers], [newInstance] with the four lifecycle handlers
    and the delayed RPC test, [openFile] and [close].

    The class mutates two references ([instance], [process]) and talks to the
    outside through [console], [Notice], [child_process] and the RPC client.
    Methods are therefore computations in a small state-and-trace monad: they
    read and write the [Neovim] record and append, in program order, one
    [Effect] per external call.  What the outside answers (does the spawn
    succeed, is the port in use, does [quit] throw) is read from a [World]
    that is an argument of every method. *)

From Stdlib Require Import String Ascii List Bool NArith Arith Lia DecimalString.
Import ListNotations.
Open Scope string_scope.

(* ------------------------------------------------------------------------- *)
(** ** JavaScript primitives used by the class *)

Module JS.

(** Truthiness of a string: every string but the empty one. *)
Definition truthy (s : string) : bool := negb (s =? "").

(** Truthiness of [string | undefined]. *)
Definition truthy_opt (o : option string) : bool :=
  match o with
  | Some s => truthy s
  | None => false
  end.

(** [a || b] on [string | undefined] with a string default. *)
Definition or_else (o : option string) (d : string) : string :=
  match o with
  | Some s => if truthy s then s else d
  | None => d
  end.

(** [s.endsWith(suffix)]. *)
Definition endsWith (s suffix : string) : bool :=
  let n := String.length s in
  let m := String.length suffix in
  if (m <=? n)%nat then substring (n - m) m s =? suffix else false.

(** [s.startsWith(p)], used by [str_includes]. *)
Fixpoint startsWith (s p : string) : bool :=
  match p, s with
  | EmptyString, _ => true
  | String _ _, EmptyString => false
  | String a p', String b s' => Ascii.eqb a b && startsWith s' p'
  end.

(** [s.includes(sub)] on strings. *)
Fixpoint str_includes (s sub : string) : bool :=
  startsWith s sub ||
  match s with
  | EmptyString => false
  | String _ s' => str_includes s' sub
  end.

(** [arr.includes(x)] on an array of strings. *)
Definition includes (arr : list string) (x : string) : bool :=
  existsb (String.eqb x) arr.

(** [s.split(sep)] for a one-character separator: never empty, the empty
    string splits into one empty piece. *)
Fixpoint split (sep : ascii) (s : string) : list string :=
  match s with
  | EmptyString => [EmptyString]
  | String c s' =>
      if Ascii.eqb c sep then EmptyString :: split sep s'
      else match split sep s' with
           | [] => [String c EmptyString]
           | piece :: pieces => String c piece :: pieces
           end
  end.

(** [arr.at(-1)] and [arr.pop()] as far as their value goes: the last element,
    [undefined] on an empty array. *)
Fixpoint at_last (arr : list string) : option string :=
  match arr with
  | [] => None
  | [x] => Some x
  | _ :: rest => at_last rest
  end.

(** [s.toLowerCase()], on the ASCII letters. *)
Definition lower_ascii (c : ascii) : ascii :=
  let n := nat_of_ascii c in
  if ((65 <=? n)%nat && (n <=? 90)%nat)%bool then ascii_of_nat (n + 32) else c.

Fixpoint toLowerCase (s : string) : string :=
  match s with
  | EmptyString => EmptyString
  | String c s' => String (lower_ascii c) (toLowerCase s')
  end.

(** A template literal prints [undefined] for a missing value. *)
Definition show_opt (o : option string) : string :=
  match o with
  | Some s => s
  | None => "undefined"
  end.

Definition show_bool (b : bool) : string := if b then "true" else "false".

Definition show_N (n : N) : string := NilEmpty.string_of_uint (N.to_uint n).

Definition dquote : string := String "034"%char EmptyString.

Definition quoted (s : string) : string := dquote ++ s ++ dquote.

(** [JSON.stringify] of an array of strings and of a flat object whose values
    are already rendered; characters that JSON would escape are left as they
    are (the result is only ever written to the console). *)
Definition stringify_array (arr : list string) : string :=
  "[" ++ String.concat "," (map quoted arr) ++ "]".

Definition stringify_object (fields : list (string * string)) : string :=
  "{" ++ String.concat "," (map (fun kv => quoted (fst kv) ++ ":" ++ snd kv) fields) ++ "}".

(** Object spread [{...base, ...extra}]: a key of [extra] replaces the value
    where the key already is, and is appended otherwise. *)
Fixpoint assign (k v : string) (obj : list (string * string)) : list (string * string) :=
  match obj with
  | [] => [(k, v)]
  | (k', v') :: rest => if k' =? k then (k, v) :: rest else (k', v') :: assign k v rest
  end.

Definition spread (base extra : list (string * string)) : list (string * string) :=
  fold_left (fun obj kv => assign (fst kv) (snd kv) obj) extra base.

End JS.

(* ------------------------------------------------------------------------- *)
(** ** Data *)

(** The fields of [EditInNeovimSettings] (declared in [./Settings]) that the
    class reads. *)
Record EditInNeovimSettings : Type := {
  terminal : string;
  listenOn : string;
  pathToBinary : string;
  supportedFileTypes : list string
}.

(** The fields of an Obsidian [TFile] that [openFile] reads. *)
Module TFile.
Record t : Type := { path : string; extension : string; basename : string }.
End TFile.

(** The two methods of Obsidian's [FileSystemAdapter] that the class calls. *)
Record FileSystemAdapter : Type := {
  getBasePath : string;
  getFullPath : string -> string
}.

(** An [Error] as the class looks at it: its message, and the [code] and
    [signal] of an errno or exec-file exception. *)
Record JsError : Type := {
  message : string;
  code : option string;
  signal : option string
}.

(** One element of [findNvim(...).matches], and the value of [nvimBinary]. *)
Module NvimVersion.
Record t : Type := {
  path : string;
  nvimVersion : option string;
  error : option JsError
}.
End NvimVersion.

(** What [child_process.spawn] returns: the class only reads [pid]. *)
Record ChildProcess : Type := { pid : option N }.

(** What [attach({ proc })] returns: the client bound to that process. *)
Record NeovimClient : Type := { proc : ChildProcess }.

(** A buffer handle of the RPC client. *)
Definition Buffer : Type := N.

Inductive ShellOption : Type :=
| ShellFlag (b : bool)
| ShellPath (s : string).

Record SpawnOptions : Type := {
  cwd : string;
  env : list (string * string);
  shell : ShellOption;
  detached : bool
}.

(** The mutable object: the fields of the class. *)
Record Neovim : Type := {
  instance : option NeovimClient;
  process : option ChildProcess;
  settings : EditInNeovimSettings;
  nvimBinary : NvimVersion.t;
  termBinary : option string;
  adapter : FileSystemAdapter;
  apiKey : option string
}.

Definition set_instance (i : option NeovimClient) (s : Neovim) : Neovim :=
  {| instance := i; process := process s; settings := settings s;
     nvimBinary := nvimBinary s; termBinary := termBinary s;
     adapter := adapter s; apiKey := apiKey s |}.

Definition set_process (p : option ChildProcess) (s : Neovim) : Neovim :=
  {| instance := instance s; process := p; settings := settings s;
     nvimBinary := nvimBinary s; termBinary := termBinary s;
     adapter := adapter s; apiKey := apiKey s |}.

(* ------------------------------------------------------------------------- *)
(** ** Effects and the outside world *)

(** One entry per call that leaves the class.  An [Error] object handed to the
    console is written as its message. *)
Inductive Effect : Type :=
| ConsoleLog (msg : string)
| ConsoleWarn (msg : string)
| ConsoleError (msg : string)
| Notice (msg : string) (duration : N)
| SearchForBinary (name : string)
| FindNvim
| Spawn (command : string) (args : list string) (options : SpawnOptions)
| ProcessOn (event : string)
| Attach (p : ChildProcess)
| SetTimeout (delay : N)
| RpcEval (client : NeovimClient) (expr : string)
| RpcBuffers (client : NeovimClient)
| RpcQuit (client : NeovimClient)
| Kill (p : ChildProcess) (sig : string)
| IsPortInUse (port : string)
| ExecFile (file : string) (args : list string).

(** A call either returns or throws. *)
Inductive Outcome (A : Type) : Type :=
| Returned (a : A)
| Thrown (e : JsError).
Arguments Returned {A} a.
Arguments Thrown {A} e.

(** The answers of the environment at the time of a call. *)
Record World : Type := {
  platform : string;
  processEnv : list (string * string);
  userShell : option string;
  searchForBinary : string -> option string;
  findNvim_matches : list NvimVersion.t;
  spawn : string -> list string -> SpawnOptions -> Outcome ChildProcess;
  attach_fails : ChildProcess -> option JsError;
  rpc_eval : NeovimClient -> string -> Outcome unit;
  rpc_buffers : NeovimClient -> Outcome (list Buffer);
  rpc_quit : NeovimClient -> Outcome unit;
  kill : ChildProcess -> string -> bool;
  isPortInUse : string -> Outcome bool;
  execFile : string -> list string -> Outcome unit
}.

(* ------------------------------------------------------------------------- *)
(** ** The state-and-trace monad *)

Definition M (A : Type) : Type := Neovim -> A * Neovim * list Effect.

Definition ret {A} (a : A) : M A := fun s => (a, s, []).

Definition bind {A B} (m : M A) (f : A -> M B) : M B :=
  fun s =>
    let '(a, s1, t1) := m s in
    let '(b, s2, t2) := f a s1 in
    (b, s2, (t1 ++ t2)%list).

Definition gets {A} (f : Neovim -> A) : M A := fun s => (f s, s, []).

Definition modify (f : Neovim -> Neovim) : M unit := fun s => (tt, f s, []).

Definition emit (e : Effect) : M unit := fun s => (tt, s, [e]).

(** An external call: leaves its mark in the trace and hands back what the
    world answered. *)
Definition call {A} (e : Effect) (answer : A) : M A := fun s => (answer, s, [e]).

Declare Scope monad_scope.
Delimit Scope monad_scope with monad.
Notation "x <- c1 ;; c2" := (bind c1 (fun x => c2))
  (at level 61, c1 at next level, right associativity) : monad_scope.
Notation "c1 ;; c2" := (bind c1 (fun _ => c2))
  (at level 61, right associativity) : monad_scope.
Open Scope monad_scope.

Definition result {A} (r : A * Neovim * list Effect) : A := fst (fst r).
Definition state_after {A} (r : A * Neovim * list Effect) : Neovim := snd (fst r).
Definition trace {A} (r : A * Neovim * list Effect) : list Effect := snd r.

Definition console_log (msg : string) : M unit := emit (ConsoleLog msg).
Definition console_warn (msg : string) : M unit := emit (ConsoleWarn msg).
Definition console_error (msg : string) : M unit := emit (ConsoleError msg).
Definition new_Notice (msg : string) (duration : N) : M unit := emit (Notice msg duration).

Definition is_some {A} (o : option A) : bool :=
  match o with
  | Some _ => true
  | None => false
  end.

Definition has_code (e : JsError) (c : string) : bool :=
  match code e with
  | Some c' => c' =? c
  | None => false
  end.

Definition nl : string := String "010"%char EmptyString.

(* ------------------------------------------------------------------------- *)
(** ** The methods of the class *)

Section Methods.

Variable w : World.

(** [getBuffers] (lines 62-71). *)
Definition getBuffers : M (list Buffer) :=
  inst <- gets instance ;;
  match inst with
  | None => ret []
  | Some client =>
      r <- call (RpcBuffers client) (rpc_buffers w client) ;;
      match r with
      | Returned buffers => ret buffers
      | Thrown e =>
          console_error ("Failed to get Neovim buffers: " ++ message e) ;;
          new_Notice ("Error communicating with Neovim: " ++ message e) 5000 ;;
          ret []
      end
  end.

(** [close] (lines 321-346).  [quit] sits in a [try]; [kill] answers with a
    boolean. *)
Definition close : M unit :=
  console_log "Close method called." ;;
  inst <- gets instance ;;
  match inst with
  | Some client =>
      console_log "Attempting to quit Neovim instance via RPC..." ;;
      r <- call (RpcQuit client) (rpc_quit w client) ;;
      match r with
      | Returned _ => ret tt
      | Thrown e => console_error ("Error during instance.quit(): " ++ message e)
      end ;;
      modify (set_instance None)
  | None => console_log "No active Neovim instance object to quit via RPC."
  end ;;
  p <- gets process ;;
  match p with
  | Some cp =>
      console_log ("Killing Neovim process (PID: "
                   ++ JS.show_opt (option_map JS.show_N (pid cp)) ++ ")...") ;;
      killed <- call (Kill cp "SIGTERM") (kill w cp "SIGTERM") ;;
      console_log ("Process kill('SIGTERM') returned: " ++ JS.show_bool killed) ;;
      modify (set_process None)
  | None => console_log "No active Neovim process object to kill."
  end ;;
  console_log "Neovim instance and process references cleared." ;;
  new_Notice "Neovim instance closed." 3000.

(** *** [openFile] (lines 218-319) *)

(** Line 225: the file is a composite-format document. *)
Definition isExcalidrawMd (file : TFile.t) : bool :=
  (TFile.extension file =? "md") && JS.endsWith (TFile.path file) ".excalidraw.md".

(** File type filtering (lines 226-239): the final value of [isSupported]. *)
Definition fileTypeFilter (file : TFile.t) : M bool :=
  st <- gets settings ;;
  let isSupported := JS.includes (supportedFileTypes st) (TFile.extension file) in
  if isExcalidrawMd file then
    if JS.includes (supportedFileTypes st) "excalidraw" then
      console_log ("Opening Excalidraw file: " ++ TFile.path file) ;;
      ret true
    else
      console_log ("Skipping Excalidraw file (type not enabled): " ++ TFile.path file) ;;
      ret false
  else if negb isSupported then
    console_log ("Skipping unsupported file type '" ++ TFile.extension file ++ "': "
                 ++ TFile.path file) ;;
    ret isSupported
  else ret isSupported.

(** Connection status (lines 254-271): the final value of [canConnect]. *)
Definition checkConnection (listenAddress : string) (port : option string) : M bool :=
  inst <- gets instance ;;
  p <- gets process ;;
  if is_some inst && is_some p then
    console_log "Found active Neovim instance managed by plugin." ;;
    ret true
  else if JS.truthy_opt port then
    let port := JS.show_opt port in
    console_log ("Checking if external Neovim is listening on port " ++ port ++ "...") ;;
    r <- call (IsPortInUse port) (isPortInUse w port) ;;
    match r with
    | Returned true =>
        console_log ("Port " ++ port
                     ++ " is in use. Assuming external Neovim instance is running.") ;;
        new_Notice ("Opening file in external Neovim on " ++ listenAddress ++ "...") 3000 ;;
        ret true
    | Returned false =>
        console_log ("Port " ++ port ++ " is not in use. No Neovim instance found.") ;;
        ret false
    | Thrown e =>
        console_error ("Error checking port " ++ port ++ ": " ++ message e) ;;
        ret false
    end
  else ret false.

(** The one-shot [--remote] command (lines 279-318).  The completion callback
    runs later: it is [execFileCallback] below. *)
Definition remoteOpen (nvimPath listenAddress : string) (file : TFile.t) : M unit :=
  ad <- gets adapter ;;
  let absolutePath := getFullPath ad (TFile.path file) in
  console_log ("Requesting Neovim on " ++ listenAddress ++ " to open: " ++ absolutePath) ;;
  let args := ["--server"; listenAddress; "--remote"; absolutePath] in
  r <- call (ExecFile nvimPath args) (execFile w nvimPath args) ;;
  match r with
  | Returned _ => ret tt
  | Thrown e =>
      console_error ("Error caught during child_process.execFile call: " ++ message e) ;;
      new_Notice ("Failed to run Neovim command: " ++ message e) 10000
  end.

Definition openFile (file : option TFile.t) : M unit :=
  match file with
  | None => console_log "openFile called with null file."
  | Some file =>
      isSupported <- fileTypeFilter file ;;
      if negb isSupported then ret tt
      else
        nv <- gets nvimBinary ;;
        st <- gets settings ;;
        let nvimPath := NvimVersion.path nv in
        let listenAddress := listenOn st in
        let port := JS.at_last (JS.split ":" listenAddress) in
        if negb (JS.truthy nvimPath) then
          console_error "Cannot open file: Neovim binary path is not configured." ;;
          new_Notice "Neovim path unknown, cannot open file." 7000
        else
          canConnect <- checkConnection listenAddress port ;;
          if negb canConnect then
            console_log "No running Neovim instance (internal or external) found to open file in." ;;
            new_Notice "No running Neovim found. Use 'Open Neovim' or ensure an external instance is listening." 5000
          else remoteOpen nvimPath listenAddress file
  end.

(** The completion callback of [execFile] (lines 286-314). *)
Definition execFileCallback (nvimPath listenAddress absolutePath : string)
    (args : list string) (file : TFile.t)
    (error : option JsError) (stdout stderr : string) : M unit :=
  match error with
  | Some e =>
      console_error ("execFile '--remote' error:" ++ nl
        ++ "                  Command: " ++ nvimPath ++ nl
        ++ "                  Args: " ++ JS.stringify_array args ++ nl
        ++ "                  Error Code: " ++ JS.show_opt (code e) ++ nl
        ++ "                  Error Signal: " ++ JS.show_opt (signal e) ++ nl
        ++ "                  Error Message: " ++ message e ++ nl
        ++ "                  Stderr: " ++ stderr) ;;
      let noticeMessage :=
        if has_code e "ENOENT" then
          "Neovim executable not found at: " ++ nvimPath
        else if JS.truthy stderr
                && (JS.str_includes stderr "ECONNREFUSED"
                    || JS.str_includes stderr "Connection refused") then
          "Could not connect to Neovim server at " ++ listenAddress ++ ". Is it running?"
        else if JS.truthy stderr
                && JS.str_includes stderr "No such file or directory"
                && JS.str_includes stderr absolutePath then
          "Neovim server reported error finding file: " ++ TFile.basename file
        else if JS.truthy stderr then
          "Error opening file in Neovim: " ++ hd "" (JS.split "010" stderr)
        else "Error opening file in Neovim: " ++ message e in
      new_Notice noticeMessage 10000
  | None =>
      (if JS.truthy stdout then console_log ("Neovim --remote stdout: " ++ stdout)
       else ret tt) ;;
      (if JS.truthy stderr then console_warn ("Neovim --remote stderr: " ++ stderr)
       else ret tt) ;;
      console_log ("Successfully sent '--remote' command for: " ++ TFile.path file)
  end.

(** *** [newInstance] (lines 73-216) *)

Definition show_shell (sh : ShellOption) : string :=
  match sh with
  | ShellFlag b => JS.show_bool b
  | ShellPath p => p
  end.

Definition stringify_options (o : SpawnOptions) : string :=
  JS.stringify_object
    [("cwd", JS.quoted (cwd o));
     ("env", JS.stringify_object (map (fun kv => (fst kv, JS.quoted (snd kv))) (env o)));
     ("shell", match shell o with
               | ShellFlag b => JS.show_bool b
               | ShellPath p => JS.quoted p
               end);
     ("detached", JS.show_bool (detached o))].

(** Argument vector and shell mode (lines 105-133). *)
Definition spawnPlan (termPath nvimPath listenArg : string) : M (list string * ShellOption) :=
  if platform w =? "win32" then
    let terminalName :=
      JS.or_else (option_map JS.toLowerCase (JS.at_last (JS.split "\" termPath))) "" in
    if (terminalName =? "alacritty.exe") || (terminalName =? "wezterm.exe")
       || (terminalName =? "kitty.exe") then
      ret (["-e"; nvimPath; "--listen"; listenArg], ShellFlag false)
    else if terminalName =? "wt.exe" then
      ret (["new-tab"; "--title"; "Neovim"; nvimPath; "--listen"; listenArg], ShellFlag false)
    else if (terminalName =? "powershell.exe") || (terminalName =? "pwsh.exe") then
      let command :=
        "Start-Process -FilePath '" ++ nvimPath ++ "' -ArgumentList '--listen "
        ++ listenArg ++ "' -WindowStyle Normal" in
      ret (["-ExecutionPolicy"; "Bypass"; "-NoProfile"; "-NoExit"; "-Command"; command],
           ShellFlag true)
    else if terminalName =? "cmd.exe" then
      ret (["/c"; "start"; JS.quoted "Neovim"; JS.quoted nvimPath; "--listen"; listenArg],
           ShellFlag true)
    else
      console_warn ("Unknown/unhandled Windows terminal: " ++ termPath
        ++ ". Attempting generic '-e' execution (shell: false). This may fail.") ;;
      ret (["-e"; nvimPath; "--listen"; listenArg], ShellFlag false)
  else
    let spawnArgs := ["-e"; nvimPath; "--listen"; listenArg] in
    let sh := if JS.truthy_opt (userShell w)
              then ShellPath (JS.show_opt (userShell w)) else ShellFlag true in
    console_log ("Using config for non-Windows: shell: " ++ show_shell sh
                 ++ ", args: " ++ JS.stringify_array spawnArgs) ;;
    ret (spawnArgs, sh).

(** The [catch] of the spawn block (lines 210-215). *)
Definition spawnCatch (spawnError : JsError) : M unit :=
  console_error ("Error caught during child_process.spawn call itself: "
                 ++ message spawnError) ;;
  new_Notice ("Error trying to spawn Neovim: " ++ message spawnError) 10000 ;;
  modify (set_process None) ;;
  modify (set_instance None).

Definition newInstance (adapter : FileSystemAdapter) : M unit :=
  p <- gets process ;;
  if is_some p then
    new_Notice "Linked Neovim instance already running" 5000 ;;
    console_log "newInstance called, but process already exists."
  else
    tb <- gets termBinary ;;
    st <- gets settings ;;
    nv <- gets nvimBinary ;;
    key <- gets apiKey ;;
    if negb (JS.truthy_opt tb) then
      new_Notice ("Unknown terminal: '" ++ terminal st
        ++ "'. Is it installed and on your PATH? Cannot start Neovim.") 8000 ;;
      console_error "newInstance failed: Terminal binary path is missing."
    else if negb (JS.truthy (NvimVersion.path nv)) then
      new_Notice "Neovim binary path is not configured correctly. Cannot start Neovim." 8000 ;;
      console_error "newInstance failed: Neovim binary path is missing."
    else
      let termPath := JS.show_opt tb in
      let nvimPath := NvimVersion.path nv in
      let listenArg := listenOn st in
      let extraEnvVars :=
        if JS.truthy_opt key then [("OBSIDIAN_REST_API_KEY", JS.show_opt key)] else [] in
      plan <- spawnPlan termPath nvimPath listenArg ;;
      let spawnArgs := fst plan in
      let spawnOptions :=
        {| cwd := getBasePath adapter;
           env := JS.spread (processEnv w) extraEnvVars;
           shell := snd plan;
           detached := false |} in
      console_log ("Attempting to spawn process:" ++ nl
        ++ "      Platform: " ++ platform w ++ nl
        ++ "      Executable: " ++ termPath ++ nl
        ++ "      Arguments: " ++ JS.stringify_array spawnArgs ++ nl
        ++ "      Options: " ++ stringify_options spawnOptions) ;;
      r <- call (Spawn termPath spawnArgs spawnOptions)
                (spawn w termPath spawnArgs spawnOptions) ;;
      match r with
      | Thrown spawnError => spawnCatch spawnError
      | Returned cp =>
          modify (set_process (Some cp)) ;;
          match pid cp with
          | None =>
              console_error "Failed to spawn process object or PID is undefined immediately after spawn call." ;;
              new_Notice "Failed to create Neovim process object." 7000 ;;
              modify (set_process None)
          | Some n =>
              console_log ("Process spawned successfully with PID: " ++ JS.show_N n) ;;
              emit (ProcessOn "error") ;;
              emit (ProcessOn "close") ;;
              emit (ProcessOn "exit") ;;
              emit (ProcessOn "disconnect") ;;
              console_log "Attempting to attach to Neovim RPC via process..." ;;
              a <- call (Attach cp) (attach_fails w cp) ;;
              match a with
              | Some attachError => spawnCatch attachError
              | None =>
                  modify (set_instance (Some {| proc := cp |})) ;;
                  console_log "Neovim attach call completed." ;;
                  emit (SetTimeout 1500)
              end
          end
      end.

(** The four handlers registered on the spawned process (lines 155-190).
    The [error] handler closes over the [termPath] of the launch. *)
Definition on_error (termPath : string) (err : JsError) : M unit :=
  console_error ("Neovim child_process emitted 'error' event: " ++ message err) ;;
  let msg :=
    if has_code err "ENOENT" then
      "Could not find executable: " ++ termPath ++ ". Is it installed and in PATH?"
    else if has_code err "EACCES" then
      "Permission denied executing: " ++ termPath
    else "Failed to start Neovim process: " ++ message err in
  new_Notice msg 10000 ;;
  modify (set_process None) ;;
  modify (set_instance None).

Definition on_close (exitCode : option N) (sig : option string) : M unit :=
  p <- gets process ;;
  if is_some p then
    modify (set_process None) ;;
    modify (set_instance None)
  else ret tt.

Definition on_exit (exitCode : option N) (sig : option string) : M unit :=
  p <- gets process ;;
  if is_some p then
    modify (set_process None) ;;
    modify (set_instance None) ;;
    console_log "Neovim instance and process state cleared on 'exit'."
  else ret tt.

Definition on_disconnect : M unit :=
  console_log "Neovim process 'disconnect' event." ;;
  p <- gets process ;;
  if is_some p then
    modify (set_process None) ;;
    modify (set_instance None) ;;
    console_log "Neovim instance and process state cleared on 'disconnect'."
  else ret tt.

(** The callback handed to [setTimeout] (lines 197-208).  It awaits the
    answer of [eval]; what runs once the answer is there is
    [connectionTestSettled], which looks at the object again only through
    [close]. *)
Definition connectionTestSettled (answer : Outcome unit) : M unit :=
  match answer with
  | Returned _ =>
      console_log "Neovim RPC connection test successful." ;;
      new_Notice "Neovim instance started and connected." 3000
  | Thrown rpcError =>
      console_error ("Neovim RPC connection failed after spawn: " ++ message rpcError) ;;
      new_Notice ("Failed to establish RPC connection: " ++ message rpcError) 7000 ;;
      close
  end.

Definition connectionTest : M unit :=
  inst <- gets instance ;;
  match inst with
  | None => ret tt
  | Some client =>
      answer <- call (RpcEval client "1") (rpc_eval w client "1") ;;
      connectionTestSettled answer
  end.

(** *** The constructor (lines 17-60) *)

(** Lines 24-37: the value given to [nvimBinary], with what is written and
    searched on the way. *)
Definition resolveNvimBinary (settings : EditInNeovimSettings)
  : NvimVersion.t * list Effect :=
  if JS.truthy (pathToBinary settings) then
    ({| NvimVersion.path := pathToBinary settings;
        NvimVersion.nvimVersion := Some "manual_path";
        NvimVersion.error := None |},
     [ConsoleLog ("Using manual Neovim path: " ++ pathToBinary settings)])
  else
    match findNvim_matches w with
    | found :: _ =>
        (found,
         [ConsoleLog "Searching for Neovim binary in default locations..."; FindNvim])
    | [] =>
        ({| NvimVersion.path := "";
            NvimVersion.nvimVersion := None;
            NvimVersion.error :=
              Some {| message := "Neovim binary not found automatically.";
                      code := None; signal := None |} |},
         [ConsoleLog "Searching for Neovim binary in default locations..."; FindNvim;
          Notice "Edit In Neovim: Could not automatically find a Neovim binary. Please set the path manually in settings or ensure nvim is in your PATH." 10000])
    end.

(** Lines 39-54: what is reported about the resolved binary. *)
Definition reportNvimBinary (settings : EditInNeovimSettings) (term : option string)
    (nv : NvimVersion.t) : list Effect :=
  let path := NvimVersion.path nv in
  if JS.truthy path && negb (JS.truthy_opt (NvimVersion.nvimVersion nv))
     && JS.truthy (pathToBinary settings) then
    [ConsoleWarn ("Using manually provided Neovim path: " ++ path
                  ++ ". Version check skipped.")]
  else if negb (JS.truthy path) && is_some (NvimVersion.error nv) then
    [ConsoleError ("Failed to find or configure Neovim binary: "
                   ++ match NvimVersion.error nv with
                      | Some e => message e
                      | None => ""
                      end)]
  else if negb (JS.truthy path) && negb (JS.truthy (pathToBinary settings)) then
    [ConsoleError "Neovim binary path could not be determined.";
     Notice "Edit In Neovim: Could not determine Neovim binary path." 10000]
  else
    [ConsoleLog ("Neovim Information:" ++ nl
       ++ "  - Term Path: " ++ JS.or_else term "Not Found/Not Set" ++ nl
       ++ "  - Nvim Path: " ++ path ++ nl
       ++ "  - Version: "
       ++ JS.or_else (NvimVersion.nvimVersion nv) "N/A (Manual Path or Check Failed)" ++ nl
       ++ "  - Error State: "
       ++ match NvimVersion.error nv with
          | Some e => message e
          | None => "None"
          end)].

Definition constructor (settings : EditInNeovimSettings) (adapter : FileSystemAdapter)
    (apiKey : option string) : Neovim * list Effect :=
  let term := searchForBinary w (terminal settings) in
  let '(nv, resolved) := resolveNvimBinary settings in
  ({| instance := None;
      process := None;
      settings := settings;
      nvimBinary := nv;
      termBinary := term;
      adapter := adapter;
      apiKey := apiKey |},
   (SearchForBinary (terminal settings) :: resolved
    ++ reportNvimBinary settings term nv
    ++ (if negb (JS.truthy_opt term) then
          [ConsoleWarn ("Could not find terminal binary for: '" ++ terminal settings
             ++ "'. Is it installed and in your PATH? Spawning Neovim might fail.")]
        else []))%list).

End Methods.

(* ------------------------------------------------------------------------- *)
(** ** The supervisor as a transition system *)

Inductive LifecycleEvent : Type :=
| EvError (err : JsError)
| EvClose (exitCode : option N) (sig : option string)
| EvExit (exitCode : option N) (sig : option string)
| EvDisconnect.

(** Firing the handler that a launch with terminal [termPath] registered. *)
Definition fire (termPath : string) (ev : LifecycleEvent) : M unit :=
  match ev with
  | EvError err => on_error termPath err
  | EvClose c sg => on_close c sg
  | EvExit c sg => on_exit c sg
  | EvDisconnect => on_disconnect
  end.

(** Everything that can happen to an object once it is constructed: a method
    call, a lifecycle event of a spawned process, the timer of a launch, and
    the late answer of the timer's [eval] after other steps have run. *)
Inductive Step : Type :=
| CallNewInstance (adapter : FileSystemAdapter)
| CallOpenFile (file : option TFile.t)
| CallGetBuffers
| CallClose
| Fire (termPath : string) (ev : LifecycleEvent)
| TimerExpires
| EvalSettles (answer : Outcome unit).

Definition step (w : World) (st : Step) (s : Neovim) : Neovim :=
  match st with
  | CallNewInstance ad => state_after (newInstance w ad s)
  | CallOpenFile file => state_after (openFile w file s)
  | CallGetBuffers => state_after (getBuffers w s)
  | CallClose => state_after (close w s)
  | Fire termPath ev => state_after (fire termPath ev s)
  | TimerExpires => state_after (connectionTest w s)
  | EvalSettles answer => state_after (connectionTestSettled w answer s)
  end.

Inductive reachable : Neovim -> Prop :=
| reach_constructed (w : World) settings adapter apiKey :
    reachable (fst (constructor w settings adapter apiKey))
| reach_step (w : World) (st : Step) (s : Neovim) :
    reachable s -> reachable (step w st s).

(** The data-model invariant: a control session exists exactly while a
    supervised process does. *)
Definition paired (s : Neovim) : Prop :=
  is_some (instance s) = is_some (process s).

(** Both references cleared, everything else as it was. *)
Definition cleared (s : Neovim) : Neovim :=
  set_instance None (set_process None s).

(** Clearing behind the guard [if (this.process)]. *)
Definition guardedClear (s : Neovim) : Neovim :=
  if is_some (process s) then cleared s else s.

(** Trace predicates. *)
Definition is_notice (e : Effect) : bool :=
  match e with
  | Notice _ _ => true
  | _ => false
  end.

Definition is_execFile (e : Effect) : bool :=
  match e with
  | ExecFile _ _ => true
  | _ => false
  end.

Definition is_spawn (e : Effect) : bool :=
  match e with
  | Spawn _ _ _ => true
  | _ => false
  end.

Definition is_probe (e : Effect) : bool :=
  match e with
  | IsPortInUse _ => true
  | _ => false
  end.

Definition is_quit_or_kill (e : Effect) : bool :=
  match e with
  | RpcQuit _ | Kill _ _ => true
  | _ => false
  end.

Definition notices (t : list Effect) : list Effect := filter is_notice t.
Definition execFiles (t : list Effect) : list Effect := filter is_execFile t.

(* ------------------------------------------------------------------------- *)
(** ** Concrete environments, configurations and files *)

Definition vaultAdapter : FileSystemAdapter :=
  {| getBasePath := "/vault"; getFullPath := fun p => "/vault/" ++ p |}.

(** A Unix host with Neovim installed, nothing listening on any port. *)
Definition quietWorld : World :=
  {| platform := "linux";
     processEnv := [("HOME", "/home/u")];
     userShell := Some "/bin/bash";
     searchForBinary := fun name => Some ("/usr/bin/" ++ name);
     findNvim_matches :=
       [{| NvimVersion.path := "/usr/bin/nvim";
           NvimVersion.nvimVersion := Some "0.10.0";
           NvimVersion.error := None |}];
     spawn := fun _ _ _ => Returned {| pid := Some 4242%N |};
     attach_fails := fun _ => None;
     rpc_eval := fun _ _ => Returned tt;
     rpc_buffers := fun _ => Returned [1%N; 2%N];
     rpc_quit := fun _ => Returned tt;
     kill := fun _ _ => true;
     isPortInUse := fun _ => Returned false;
     execFile := fun _ _ => Returned tt |}.

Definition transportDown : JsError :=
  {| message := "transport closed"; code := None; signal := None |}.

(** The same host with an external instance listening, no Neovim found by the
    search, and an RPC transport that fails. *)
Definition externalWorld : World :=
  {| platform := "linux";
     processEnv := [("HOME", "/home/u")];
     userShell := Some "/bin/bash";
     searchForBinary := fun name => Some ("/usr/bin/" ++ name);
     findNvim_matches := [];
     spawn := fun _ _ _ => Returned {| pid := Some 4243%N |};
     attach_fails := fun _ => None;
     rpc_eval := fun _ _ => Thrown transportDown;
     rpc_buffers := fun _ => Thrown transportDown;
     rpc_quit := fun _ => Thrown transportDown;
     kill := fun _ _ => false;
     isPortInUse := fun _ => Returned true;
     execFile := fun _ _ => Returned tt |}.

Definition mdSettings : EditInNeovimSettings :=
  {| terminal := "alacritty"; listenOn := "127.0.0.1:7777"; pathToBinary := "";
     supportedFileTypes := ["md"; "txt"] |}.

Definition toggleOnlySettings : EditInNeovimSettings :=
  {| terminal := "alacritty"; listenOn := "127.0.0.1:7777"; pathToBinary := "";
     supportedFileTypes := ["txt"; "excalidraw"] |}.

Definition manualSettings : EditInNeovimSettings :=
  {| terminal := "alacritty"; listenOn := "127.0.0.1:7777";
     pathToBinary := "/opt/nvim/bin/nvim";
     supportedFileTypes := ["md"] |}.

Definition todayNote : TFile.t :=
  {| TFile.path := "notes/today.md"; TFile.extension := "md"; TFile.basename := "today" |}.

Definition drawing : TFile.t :=
  {| TFile.path := "art/plan.excalidraw.md"; TFile.extension := "md";
     TFile.basename := "plan.excalidraw" |}.

(** Freshly constructed, then launched. *)
Definition idle : Neovim := fst (constructor quietWorld mdSettings vaultAdapter None).
Definition running : Neovim := step quietWorld (CallNewInstance vaultAdapter) idle.

(** The object with an owned process and the session attached to it, written
    out field by field. *)
Definition attached : Neovim :=
  {| instance := Some {| proc := {| pid := Some 4242%N |} |};
     process := Some {| pid := Some 4242%N |};
     settings := mdSettings;
     nvimBinary :=
       {| NvimVersion.path := "/usr/bin/nvim";
          NvimVersion.nvimVersion := Some "0.10.0";
          NvimVersion.error := None |};
     termBinary := Some "/usr/bin/alacritty";
     adapter := vaultAdapter;
     apiKey := None |}.

(** Constructed where the search found no Neovim: the binary path is empty. *)
Definition unresolved : Neovim := fst (constructor externalWorld mdSettings vaultAdapter None).

(** Constructed with the composite toggle but without its base type. *)
Definition toggleOnly : Neovim :=
  fst (constructor quietWorld toggleOnlySettings vaultAdapter None).

(** The owned process and session both exist (line 255). *)
Definition owned (s : Neovim) : bool := is_some (instance s) && is_some (process s).

(** An external instance answers the probe (lines 258-270): a port can be read
    off the listen address and [isPortInUse] returns [true] for it. *)
Definition probeSucceeds (w : World) (s : Neovim) : bool :=
  let port := JS.at_last (JS.split ":" (listenOn (settings s))) in
  JS.truthy_opt port &&
  match isPortInUse w (JS.show_opt port) with
  | Returned true => true
  | _ => false
  end.

Definition noInstanceFound : Effect :=
  Notice "No running Neovim found. Use 'Open Neovim' or ensure an external instance is listening." 5000.

Definition pathUnknown : Effect :=
  Notice "Neovim path unknown, cannot open file." 7000.

Definition alreadyRunning : Effect :=
  Notice "Linked Neovim instance already running" 5000.

(** The command line of the remote open. *)
Definition remoteCommand (s : Neovim) (file : TFile.t) : Effect :=
  ExecFile (NvimVersion.path (nvimBinary s))
    ["--server"; listenOn (settings s); "--remote";
     getFullPath (adapter s) (TFile.path file)].

(* ------------------------------------------------------------------------- *)
(** ** Vocabulary for the properties of the remaining code *)

(** The character occurs in the string. *)
Fixpoint has_char (c : ascii) (s : string) : bool :=
  match s with
  | EmptyString => false
  | String a s' => Ascii.eqb a c || has_char c s'
  end.

(** Property read [obj[k]] on an object kept as a list of entries. *)
Fixpoint lookup (k : string) (obj : list (string * string)) : option string :=
  match obj with
  | [] => None
  | (k', v) :: rest => if k' =? k then Some v else lookup k rest
  end.

(** What one step writes to the trace. *)
Definition stepTrace (w : World) (st : Step) (s : Neovim) : list Effect :=
  match st with
  | CallNewInstance ad => trace (newInstance w ad s)
  | CallOpenFile file => trace (openFile w file s)
  | CallGetBuffers => trace (getBuffers w s)
  | CallClose => trace (close w s)
  | Fire termPath ev => trace (fire termPath ev s)
  | TimerExpires => trace (connectionTest w s)
  | EvalSettles answer => trace (connectionTestSettled w answer s)
  end.

(** A run: each step with the world it meets; the final object and everything
    written on the way. *)
Fixpoint run (steps : list (World * Step)) (s : Neovim) : Neovim * list Effect :=
  match steps with
  | [] => (s, [])
  | (w, st) :: rest =>
      let '(s', t) := run rest (step w st s) in
      (s', (stepTrace w st s ++ t)%list)
  end.

(** The fields that only the constructor writes. *)
Definition sameConfig (s s' : Neovim) : Prop :=
  settings s' = settings s
  /\ nvimBinary s' = nvimBinary s
  /\ termBinary s' = termBinary s
  /\ adapter s' = adapter s
  /\ apiKey s' = apiKey s.

(** The owned pair as a launch leaves it: the session is the client attached
    to the owned process, the process has an id, and both binaries were
    resolved. *)
Definition supervised (s : Neovim) : Prop :=
  match process s, instance s with
  | None, None => True
  | Some cp, Some client =>
      proc client = cp
      /\ pid cp <> None
      /\ JS.truthy (NvimVersion.path (nvimBinary s)) = true
      /\ JS.truthy_opt (termBinary s) = true
  | _, _ => False
  end.

Definition is_handler (e : Effect) : bool :=
  match e with
  | ProcessOn _ => true
  | _ => false
  end.

(** A process is started or a command is run. *)
Definition is_launch (e : Effect) : bool :=
  match e with
  | Spawn _ _ _ | ExecFile _ _ => true
  | _ => false
  end.

(** Any call that leaves the class other than the console and a notice. *)
Definition is_external (e : Effect) : bool :=
  match e with
  | ConsoleLog _ | ConsoleWarn _ | ConsoleError _ | Notice _ _ => false
  | _ => true
  end.

(** The environment handed to [spawn]. *)
Definition spawnEnv (e : Effect) : list (string * string) :=
  match e with
  | Spawn _ _ options => env options
  | _ => []
  end.

(** The terminal name that the Windows branch compares (line 106). *)
Definition terminalName (termPath : string) : string :=
  JS.or_else (option_map JS.toLowerCase (JS.at_last (JS.split "\" termPath))) "".

(** Both binaries are resolved (the two tests of lines 80-89). *)
Definition configured (s : Neovim) : bool :=
  JS.truthy_opt (termBinary s) && JS.truthy (NvimVersion.path (nvimBinary s)).

(** The command, argument vector and options that [newInstance] hands to
    [spawn] (lines 91-133), and what the world answers to them. *)
Definition launchCommand (w : World) (ad : FileSystemAdapter) (s : Neovim)
  : string * list string * SpawnOptions :=
  let termPath := JS.show_opt (termBinary s) in
  let plan :=
    result (spawnPlan w termPath (NvimVersion.path (nvimBinary s))
              (listenOn (settings s)) s) in
  (termPath, fst plan,
   {| cwd := getBasePath ad;
      env := JS.spread (processEnv w)
               (if JS.truthy_opt (apiKey s)
                then [("OBSIDIAN_REST_API_KEY", JS.show_opt (apiKey s))] else []);
      shell := snd plan;
      detached := false |}).

Definition launchEffect (w : World) (ad : FileSystemAdapter) (s : Neovim) : Effect :=
  let '(command, args, options) := launchCommand w ad s in
  Spawn command args options.

Definition launchAnswer (w : World) (ad : FileSystemAdapter) (s : Neovim)
  : Outcome ChildProcess :=
  let '(command, args, options) := launchCommand w ad s in
  spawn w command args options.

(** The object after a launch that went through with process [cp]. *)
Definition launched (cp : ChildProcess) (s : Neovim) : Neovim :=
  set_instance (Some {| proc := cp |}) (set_process (Some cp) s).

Definition handlersRegistered : list Effect :=
  [ProcessOn "error"; ProcessOn "close"; ProcessOn "exit"; ProcessOn "disconnect"].

(** The launch did not go through: [spawn] threw, or returned a process
    without an id, or [attach] threw. *)
Definition launchFails (w : World) (ad : FileSystemAdapter) (s : Neovim) : bool :=
  match launchAnswer w ad s with
  | Thrown _ => true
  | Returned cp =>
      match pid cp with
      | None => true
      | Some _ => is_some (attach_fails w cp)
      end
  end.

(** A Windows host: the terminal is found under its full path. *)
Definition windowsWorld : World :=
  {| platform := "win32";
     processEnv := [("OBSIDIAN_REST_API_KEY", "stale"); ("USERPROFILE", "C:\Users\u")];
     userShell := None;
     searchForBinary := fun name => Some ("C:\Tools\" ++ name);
     findNvim_matches :=
       [{| NvimVersion.path := "C:\nvim\bin\nvim.exe";
           NvimVersion.nvimVersion := Some "0.10.0";
           NvimVersion.error := None |}];
     spawn := fun _ _ _ => Returned {| pid := Some 77%N |};
     attach_fails := fun _ => None;
     rpc_eval := fun _ _ => Returned tt;
     rpc_buffers := fun _ => Returned [];
     rpc_quit := fun _ => Returned tt;
     kill := fun _ _ => true;
     isPortInUse := fun _ => Returned false;
     execFile := fun _ _ => Returned tt |}.

(** The quiet host, except that [attach] throws. *)
Definition attachThrowsWorld : World :=
  {| platform := platform quietWorld;
     processEnv := processEnv quietWorld;
     userShell := userShell quietWorld;
     searchForBinary := searchForBinary quietWorld;
     findNvim_matches := findNvim_matches quietWorld;
     spawn := spawn quietWorld;
     attach_fails := fun _ => Some transportDown;
     rpc_eval := rpc_eval quietWorld;
     rpc_buffers := rpc_buffers quietWorld;
     rpc_quit := rpc_quit quietWorld;
     kill := kill quietWorld;
     isPortInUse := isPortInUse quietWorld;
     execFile := execFile quietWorld |}.

(* ------------------------------------------------------------------------- *)
(** ** Computations that leave the object alone *)

Definition readOnly {A} (m : M A) : Prop := forall s, state_after (m s) = s.

Lemma readOnly_ret {A} (a : A) : readOnly (ret a).
Proof. intro s. reflexivity. Qed.

Lemma readOnly_gets {A} (f : Neovim -> A) : readOnly (gets f).
Proof. intro s. reflexivity. Qed.

Lemma readOnly_emit (e : Effect) : readOnly (emit e).
Proof. intro s. reflexivity. Qed.

Lemma readOnly_call {A} (e : Effect) (a : A) : readOnly (call e a).
Proof. intro s. reflexivity. Qed.

Lemma readOnly_bind {A B} (m : M A) (f : A -> M B) :
  readOnly m -> (forall a, readOnly (f a)) -> readOnly (bind m f).
Proof.
  intros Hm Hf s. unfold readOnly, bind, state_after in *.
  specialize (Hm s). destruct (m s) as [[a s1] t1]. simpl in Hm. subst s1.
  specialize (Hf a s). destruct (f a s) as [[b s2] t2]. exact Hf.
Qed.

Create HintDb readonly.
#[local] Hint Resolve readOnly_ret readOnly_gets readOnly_emit readOnly_call : readonly.

Ltac read_only :=
  repeat first
    [ apply readOnly_bind; [ | intro ]
    | solve [ auto with readonly ]
    | match goal with
      | |- readOnly (if ?b then _ else _) => destruct b
      | |- readOnly (match ?x with _ => _ end) => destruct x
      end ].

Lemma fileTypeFilter_readOnly file : readOnly (fileTypeFilter file).
Proof. unfold fileTypeFilter, console_log. read_only. Qed.

Lemma checkConnection_readOnly w addr port : readOnly (checkConnection w addr port).
Proof. unfold checkConnection, console_log, console_error, new_Notice. read_only. Qed.

Lemma remoteOpen_readOnly w nvimPath addr file : readOnly (remoteOpen w nvimPath addr file).
Proof. unfold remoteOpen, console_log, console_error, new_Notice. read_only. Qed.

Lemma openFile_readOnly w file : readOnly (openFile w file).
Proof.
  unfold openFile, console_log, console_error, new_Notice.
  destruct file as [file|]; [ | auto with readonly ].
  apply readOnly_bind; [ apply fileTypeFilter_readOnly | intro supported ].
  destruct supported; simpl; [ | apply readOnly_ret ].
  do 2 (apply readOnly_bind; [ apply readOnly_gets | intro ]).
  match goal with |- readOnly (if ?b then _ else _) => destruct b end.
  - read_only.
  - apply readOnly_bind; [ apply checkConnection_readOnly | intro can ].
    destruct can; simpl; [ apply remoteOpen_readOnly | read_only ].
Qed.

Lemma getBuffers_readOnly w : readOnly (getBuffers w).
Proof. unfold getBuffers, console_error, new_Notice. read_only. Qed.

Lemma spawnPlan_readOnly w termPath nvimPath listenArg :
  readOnly (spawnPlan w termPath nvimPath listenArg).
Proof. unfold spawnPlan, console_log, console_warn. read_only. Qed.

(* ------------------------------------------------------------------------- *)
(** ** What each step does to the two references *)

Lemma cleared_idle s :
  instance s = None -> process s = None -> cleared s = s.
Proof. destruct s; simpl; intros -> ->; reflexivity. Qed.

Lemma close_state w s : state_after (close w s) = cleared s.
Proof.
  destruct s as [i p st nv tb ad key].
  unfold close, bind, gets, modify, call, console_log, console_error, new_Notice, emit.
  destruct i as [client|], p as [cp|]; simpl;
    try destruct (rpc_quit w client); reflexivity.
Qed.

(** The [close], [exit] and [disconnect] handlers test [this.process] before
    they clear; the [error] handler assigns both references without the
    test. *)
Lemma fire_state termPath ev s :
  state_after (fire termPath ev s) =
  match ev with
  | EvError _ => cleared s
  | _ => guardedClear s
  end.
Proof.
  destruct ev; unfold fire, on_error, on_close, on_exit, on_disconnect, guardedClear,
    bind, gets, modify, console_log, console_error, new_Notice, emit; simpl;
    try destruct (process s); reflexivity.
Qed.

Lemma connectionTestSettled_state w answer s :
  state_after (connectionTestSettled w answer s) = s
  \/ state_after (connectionTestSettled w answer s) = cleared s.
Proof.
  destruct answer as [u|e]; [ left; reflexivity | right ].
  unfold connectionTestSettled, bind, console_error, new_Notice, emit; simpl.
  pose proof (close_state w s) as H. unfold state_after in *.
  destruct (close w s) as [[u s'] t]. exact H.
Qed.

Lemma connectionTest_state w s :
  state_after (connectionTest w s) = s \/ state_after (connectionTest w s) = cleared s.
Proof.
  unfold connectionTest, bind, gets, call; simpl.
  destruct (instance s) as [client|]; [ | left; reflexivity ].
  pose proof (connectionTestSettled_state w (rpc_eval w client "1") s) as H.
  unfold state_after in *.
  destruct (connectionTestSettled w (rpc_eval w client "1") s) as [[u s'] t].
  exact H.
Qed.

Lemma paired_cleared s : paired (cleared s).
Proof. reflexivity. Qed.

Lemma paired_guardedClear s : paired s -> paired (guardedClear s).
Proof.
  intro H. unfold guardedClear.
  destruct (process s); [ apply paired_cleared | exact H ].
Qed.

Lemma newInstance_paired w ad s : paired s -> paired (state_after (newInstance w ad s)).
Proof.
  intro Hs.
  unfold newInstance, bind, gets, state_after; simpl.
  destruct (process s) as [cp|] eqn:Hp; simpl; [ exact Hs | ].
  destruct (JS.truthy_opt (termBinary s)); simpl; [ | exact Hs ].
  destruct (JS.truthy (NvimVersion.path (nvimBinary s))); simpl; [ | exact Hs ].
  match goal with |- context [spawnPlan ?a ?b ?c ?d s] =>
    pose proof (spawnPlan_readOnly a b c d s) as Hplan;
    destruct (spawnPlan a b c d s) as [[plan s'] t]
  end.
  unfold state_after in Hplan; simpl in Hplan; subst s'.
  unfold call, console_log, emit; simpl.
  match goal with |- context [spawn ?a ?b ?c ?d] => destruct (spawn a b c d) as [child|e] end;
    simpl; [ | reflexivity ].
  destruct (pid child) as [n|]; simpl.
  - destruct (attach_fails w child); reflexivity.
  - unfold paired in *; simpl. rewrite Hp in Hs. exact Hs.
Qed.

(** The session never outlives the process, and the process never runs
    without its session, in any state the object can be in between two steps. *)
Lemma reachable_paired s : reachable s -> paired s.
Proof.
  induction 1 as [w st ad key | w stp s Hs IH].
  - unfold constructor. destruct (resolveNvimBinary w st). reflexivity.
  - destruct stp; simpl.
    + apply newInstance_paired, IH.
    + rewrite openFile_readOnly. exact IH.
    + rewrite getBuffers_readOnly. exact IH.
    + rewrite close_state. apply paired_cleared.
    + rewrite fire_state. destruct ev;
        auto using paired_cleared, paired_guardedClear.
    + destruct (connectionTest_state w s) as [-> | ->];
        auto using paired_cleared.
    + destruct (connectionTestSettled_state w answer s) as [-> | ->];
        auto using paired_cleared.
Qed.

Lemma guardedClear_paired s : paired s -> guardedClear s = cleared s.
Proof.
  unfold paired, guardedClear. intro H.
  destruct (process s) eqn:Hp; simpl in *; [ reflexivity | ].
  symmetry. apply cleared_idle; [ | exact Hp ].
  destruct (instance s); [ discriminate | reflexivity ].
Qed.

(* ------------------------------------------------------------------------- *)
(** ** [openFile] *)

Ltac run_openFile :=
  unfold openFile, fileTypeFilter, checkConnection, remoteOpen, remoteCommand,
    owned, probeSucceeds, isExcalidrawMd, notices, execFiles,
    bind, gets, call, emit, ret, console_log, console_error, new_Notice,
    result, state_after, trace in *.

(** The three tests of the file type filter. *)
Ltac filter_cases file s :=
  destruct ((TFile.extension file =? "md")
            && JS.endsWith (TFile.path file) ".excalidraw.md")%bool;
  [ destruct (JS.includes (supportedFileTypes (settings s)) "excalidraw")
  | destruct (JS.includes (supportedFileTypes (settings s)) (TFile.extension file)) ];
  simpl in *; try discriminate.

Ltac probe_cases w s :=
  destruct (JS.truthy_opt (JS.at_last (JS.split ":" (listenOn (settings s)))));
  simpl in *; try discriminate;
  try (destruct (isPortInUse w
                   (JS.show_opt (JS.at_last (JS.split ":" (listenOn (settings s))))))
         as [[|]|?]; simpl in *; try discriminate).

(** C9: a null file is a silent no-op: one console line, no notification, no
    port probe, no remote-open invocation, the object unchanged. *)
Theorem openFile_null (w : World) (s : Neovim) :
  openFile w None s = (tt, s, [ConsoleLog "openFile called with null file."]).
Proof. reflexivity. Qed.

(** C1 (as amended): a composite-format document (an [md] file whose path ends
    in [.excalidraw.md]) passes the filter if and only if [excalidraw] is in
    the supported set, whatever the set says about [md]; when it is not, the
    request ends with one console line: no notification, no console error, no
    probe, no remote-open invocation, the object unchanged. *)
Theorem composite_routed_iff_toggle (w : World) (s : Neovim) (file : TFile.t)
    (Hcomposite : isExcalidrawMd file = true) :
  (result (fileTypeFilter file s) = true <->
   JS.includes (supportedFileTypes (settings s)) "excalidraw" = true)
  /\ (JS.includes (supportedFileTypes (settings s)) "excalidraw" = false ->
      openFile w (Some file) s =
      (tt, s, [ConsoleLog ("Skipping Excalidraw file (type not enabled): "
                           ++ TFile.path file)])).
Proof.
  run_openFile. rewrite Hcomposite. simpl.
  destruct (JS.includes (supportedFileTypes (settings s)) "excalidraw"); simpl.
  - split; [ tauto | discriminate ].
  - split; [ split; discriminate | reflexivity ].
Qed.

Lemma composite_routed_iff_toggle_witness :
  (result (fileTypeFilter drawing toggleOnly) = true <->
   JS.includes (supportedFileTypes (settings toggleOnly)) "excalidraw" = true)
  /\ (JS.includes (supportedFileTypes (settings toggleOnly)) "excalidraw" = false ->
      openFile quietWorld (Some drawing) toggleOnly =
      (tt, toggleOnly,
       [ConsoleLog ("Skipping Excalidraw file (type not enabled): "
                    ++ TFile.path drawing)])).
Proof.
  apply (composite_routed_iff_toggle quietWorld toggleOnly drawing).
  reflexivity.
Defined.

(** C1 as stated fails: with [excalidraw] enabled and [md] not, a composite
    document passes the filter and the remote command is issued. *)
Lemma composite_toggle_alone_routed :
  isExcalidrawMd drawing = true
  /\ ~ (result (fileTypeFilter drawing toggleOnly) = true <->
        JS.includes (supportedFileTypes (settings toggleOnly)) "md" = true
        /\ JS.includes (supportedFileTypes (settings toggleOnly)) "excalidraw" = true)
  /\ execFiles (trace (openFile externalWorld (Some drawing) toggleOnly)) =
     [ExecFile "/usr/bin/nvim"
        ["--server"; "127.0.0.1:7777"; "--remote"; "/vault/art/plan.excalidraw.md"]].
Proof.
  split; [ reflexivity | split; [ | reflexivity ] ].
  intros [H _]. specialize (H eq_refl). destruct H as [H _]. discriminate H.
Qed.

(** C10: with the binary path unresolved, a supported request ends with the
    [path unknown] notification and nothing else: no probe and no remote-open
    invocation, whatever the port would have answered. *)
Theorem openFile_path_unknown (w : World) (s : Neovim) (file : TFile.t)
    (Hsupported : result (fileTypeFilter file s) = true)
    (Hpath : JS.truthy (NvimVersion.path (nvimBinary s)) = false) :
  state_after (openFile w (Some file) s) = s
  /\ notices (trace (openFile w (Some file) s)) = [pathUnknown]
  /\ filter is_probe (trace (openFile w (Some file) s)) = []
  /\ execFiles (trace (openFile w (Some file) s)) = [].
Proof.
  run_openFile. simpl in *.
  filter_cases file s; rewrite Hpath; simpl; repeat split.
Qed.

Lemma openFile_path_unknown_witness :
  state_after (openFile externalWorld (Some todayNote) unresolved) = unresolved
  /\ notices (trace (openFile externalWorld (Some todayNote) unresolved)) = [pathUnknown]
  /\ filter is_probe (trace (openFile externalWorld (Some todayNote) unresolved)) = []
  /\ execFiles (trace (openFile externalWorld (Some todayNote) unresolved)) = [].
Proof.
  apply (openFile_path_unknown externalWorld unresolved todayNote); reflexivity.
Defined.

(** C4 (as amended): for a supported request with the binary path resolved, no
    owned process/session pair and no answer on the probed port, [openFile]
    gives exactly one notification, [no instance found], issues no
    remote-open command, spawns nothing and leaves the object unchanged. *)
Theorem openFile_no_instance_found (w : World) (s : Neovim) (file : TFile.t)
    (Hsupported : result (fileTypeFilter file s) = true)
    (Hpath : JS.truthy (NvimVersion.path (nvimBinary s)) = true)
    (Hnotowned : owned s = false)
    (Hclosed : probeSucceeds w s = false) :
  state_after (openFile w (Some file) s) = s
  /\ notices (trace (openFile w (Some file) s)) = [noInstanceFound]
  /\ execFiles (trace (openFile w (Some file) s)) = []
  /\ filter is_spawn (trace (openFile w (Some file) s)) = [].
Proof.
  run_openFile. simpl in *.
  filter_cases file s; rewrite Hpath; simpl; rewrite Hnotowned; simpl;
    probe_cases w s; repeat split.
Qed.

Lemma openFile_no_instance_found_witness :
  state_after (openFile quietWorld (Some todayNote) idle) = idle
  /\ notices (trace (openFile quietWorld (Some todayNote) idle)) = [noInstanceFound]
  /\ execFiles (trace (openFile quietWorld (Some todayNote) idle)) = []
  /\ filter is_spawn (trace (openFile quietWorld (Some todayNote) idle)) = [].
Proof.
  apply (openFile_no_instance_found quietWorld idle todayNote); reflexivity.
Defined.

(** C4 as stated fails where the binary path is unresolved: the request is
    supported, nothing is owned, the port is closed, and the one notification
    is [path unknown]. *)
Lemma openFile_unresolved_not_no_instance :
  result (fileTypeFilter todayNote unresolved) = true
  /\ owned unresolved = false
  /\ probeSucceeds quietWorld unresolved = false
  /\ notices (trace (openFile quietWorld (Some todayNote) unresolved)) = [pathUnknown]
  /\ notices (trace (openFile quietWorld (Some todayNote) unresolved)) <> [noInstanceFound].
Proof. repeat split. discriminate. Qed.

(** C5 (as amended): for a supported request with the binary path resolved,
    when the owned pair exists or the port probe succeeds, [openFile] issues
    exactly one invocation, of the resolved binary with the argument vector
    [--server <listen address> --remote <absolute path>]; with an owned pair
    no port is probed; the object is unchanged. *)
Theorem openFile_remote_command (w : World) (s : Neovim) (file : TFile.t)
    (Hsupported : result (fileTypeFilter file s) = true)
    (Hpath : JS.truthy (NvimVersion.path (nvimBinary s)) = true)
    (Hreach : owned s = true \/ probeSucceeds w s = true) :
  execFiles (trace (openFile w (Some file) s)) = [remoteCommand s file]
  /\ (owned s = true -> filter is_probe (trace (openFile w (Some file) s)) = [])
  /\ filter is_spawn (trace (openFile w (Some file) s)) = []
  /\ state_after (openFile w (Some file) s) = s.
Proof.
  run_openFile. simpl in *.
  filter_cases file s; rewrite Hpath; simpl;
    (destruct (is_some (instance s) && is_some (process s))%bool; simpl in *;
     [ destruct (execFile w _ _); repeat split
     | destruct Hreach as [Hreach | Hreach]; [ discriminate | ];
       probe_cases w s;
       destruct (execFile w _ _); repeat split; discriminate ]).
Qed.

Lemma openFile_remote_command_witness :
  execFiles (trace (openFile quietWorld (Some todayNote) running)) =
  [ExecFile "/usr/bin/nvim"
     ["--server"; "127.0.0.1:7777"; "--remote"; "/vault/notes/today.md"]]
  /\ (owned running = true ->
      filter is_probe (trace (openFile quietWorld (Some todayNote) running)) = [])
  /\ filter is_spawn (trace (openFile quietWorld (Some todayNote) running)) = []
  /\ state_after (openFile quietWorld (Some todayNote) running) = running.
Proof.
  apply (openFile_remote_command quietWorld running todayNote);
    [ reflexivity | reflexivity | left; reflexivity ].
Defined.

(** C5 as stated fails where the binary path is unresolved: the request is
    supported and the probe succeeds, yet no command is issued. *)
Lemma openFile_unresolved_no_command :
  result (fileTypeFilter todayNote unresolved) = true
  /\ probeSucceeds externalWorld unresolved = true
  /\ reachable unresolved
  /\ execFiles (trace (openFile externalWorld (Some todayNote) unresolved)) = [].
Proof.
  repeat split. apply (reach_constructed externalWorld mdSettings vaultAdapter None).
Qed.

(* ------------------------------------------------------------------------- *)
(** ** Launch, lifecycle events, buffers, close, binary resolution *)

(** C2: while a process reference exists, [newInstance] only reports
    [already running]: nothing is spawned and the object, with its process
    (and process id) and its session, is exactly as before. *)
Theorem newInstance_already_running (w : World) (ad : FileSystemAdapter) (s : Neovim)
    (Hrunning : process s <> None) :
  newInstance w ad s =
    (tt, s, [alreadyRunning;
             ConsoleLog "newInstance called, but process already exists."])
  /\ filter is_spawn (trace (newInstance w ad s)) = []
  /\ process (state_after (newInstance w ad s)) = process s
  /\ instance (state_after (newInstance w ad s)) = instance s.
Proof.
  assert (E : newInstance w ad s =
    (tt, s, [alreadyRunning;
             ConsoleLog "newInstance called, but process already exists."])).
  { unfold newInstance, bind, gets. simpl.
    destruct (process s); [ reflexivity | contradiction ]. }
  rewrite E. repeat split.
Qed.

Lemma newInstance_already_running_witness :
  newInstance externalWorld vaultAdapter running =
    (tt, running, [alreadyRunning;
                   ConsoleLog "newInstance called, but process already exists."])
  /\ filter is_spawn (trace (newInstance externalWorld vaultAdapter running)) = []
  /\ process (state_after (newInstance externalWorld vaultAdapter running))
     = Some {| pid := Some 4242%N |}
  /\ instance (state_after (newInstance externalWorld vaultAdapter running))
     = Some {| proc := {| pid := Some 4242%N |} |}.
Proof.
  apply (newInstance_already_running externalWorld vaultAdapter running).
  discriminate.
Defined.

(** C3: in every state in which no session exists without a process (so in
    every state a launch, a close or an earlier event leaves), firing any of
    the four lifecycle handlers changes the object exactly as clearing both
    references behind the check that the process reference is present;
    afterwards both references are absent, and a second lifecycle event
    changes nothing. *)
Theorem lifecycle_event_clears_both (s : Neovim)
    (Hs : process s = None -> instance s = None)
    (termPath : string) (ev : LifecycleEvent) :
  state_after (fire termPath ev s) = guardedClear s
  /\ process (state_after (fire termPath ev s)) = None
  /\ instance (state_after (fire termPath ev s)) = None
  /\ forall termPath' ev',
       state_after (fire termPath' ev' (state_after (fire termPath ev s)))
       = state_after (fire termPath ev s).
Proof.
  assert (Hg : guardedClear s = cleared s).
  { unfold guardedClear. destruct (process s) eqn:Hp; [ reflexivity | ].
    symmetry. apply cleared_idle; [ apply Hs; reflexivity | exact Hp ]. }
  assert (E : state_after (fire termPath ev s) = cleared s).
  { rewrite fire_state. destruct ev; auto. }
  rewrite E, Hg. repeat split.
  intros termPath' ev'. rewrite fire_state. destruct ev'; reflexivity.
Qed.

Lemma lifecycle_event_clears_both_witness :
  state_after (fire "/usr/bin/alacritty" (EvExit (Some 0%N) None) attached)
  = guardedClear attached
  /\ process (state_after (fire "/usr/bin/alacritty" (EvExit (Some 0%N) None) attached)) = None
  /\ instance (state_after (fire "/usr/bin/alacritty" (EvExit (Some 0%N) None) attached)) = None
  /\ forall termPath' ev',
       state_after (fire termPath' ev'
                      (state_after (fire "/usr/bin/alacritty" (EvExit (Some 0%N) None) attached)))
       = state_after (fire "/usr/bin/alacritty" (EvExit (Some 0%N) None) attached).
Proof.
  apply (lifecycle_event_clears_both attached).
  intro H. discriminate H.
Defined.

(** C6: [getBuffers] never changes the object; without a session it returns
    the empty result and does nothing else; when the transport call throws it
    writes the failure to the console and returns the empty result. *)
Theorem getBuffers_never_raises (w : World) (s : Neovim) :
  state_after (getBuffers w s) = s
  /\ (instance s = None -> getBuffers w s = ([], s, []))
  /\ (forall client e,
        instance s = Some client -> rpc_buffers w client = Thrown e ->
        result (getBuffers w s) = []
        /\ trace (getBuffers w s) =
           [RpcBuffers client;
            ConsoleError ("Failed to get Neovim buffers: " ++ message e);
            Notice ("Error communicating with Neovim: " ++ message e) 5000]).
Proof.
  split; [ apply getBuffers_readOnly | ].
  unfold getBuffers, bind, gets, call, result, trace; simpl.
  split.
  - intros ->. reflexivity.
  - intros client e -> ->. split; reflexivity.
Qed.

(** C7: [close] clears both references whatever [quit] and [kill] answer and
    touches nothing else; it calls [quit] on the session, if there is one,
    before it kills the process, if there is one; a second [close] right
    after returns with the object as the first one left it, having called
    neither [quit] nor [kill]: four console lines and the [closed] notice. *)
Theorem close_idempotent (w : World) (s : Neovim) :
  state_after (close w s) = cleared s
  /\ filter is_quit_or_kill (trace (close w s)) =
     (match instance s with
      | Some client => [RpcQuit client]
      | None => []
      end
      ++ match process s with
         | Some cp => [Kill cp "SIGTERM"]
         | None => []
         end)%list
  /\ forall w',
       close w' (state_after (close w s)) =
       (tt, state_after (close w s),
        [ConsoleLog "Close method called.";
         ConsoleLog "No active Neovim instance object to quit via RPC.";
         ConsoleLog "No active Neovim process object to kill.";
         ConsoleLog "Neovim instance and process references cleared.";
         Notice "Neovim instance closed." 3000]).
Proof.
  split; [ apply close_state | split ].
  - unfold close, bind, gets, modify, call, console_log, console_error, new_Notice,
      emit, trace.
    destruct s as [i p st nv tb ad key]; destruct i as [client|], p as [cp|]; simpl;
      try destruct (rpc_quit w client); reflexivity.
  - intro w'. rewrite !close_state. reflexivity.
Qed.

(** C8 (as amended): a non-empty override path is taken as it is, with the
    version marker [manual_path] and no error, whatever the search would have
    found; resolving it makes no call to the outside but one console line,
    and the search for Neovim is not run. *)
Theorem constructor_manual_path (w : World) (st : EditInNeovimSettings)
    (ad : FileSystemAdapter) (key : option string)
    (Hoverride : JS.truthy (pathToBinary st) = true) :
  resolveNvimBinary w st =
    ({| NvimVersion.path := pathToBinary st;
        NvimVersion.nvimVersion := Some "manual_path";
        NvimVersion.error := None |},
     [ConsoleLog ("Using manual Neovim path: " ++ pathToBinary st)])
  /\ nvimBinary (fst (constructor w st ad key)) =
     {| NvimVersion.path := pathToBinary st;
        NvimVersion.nvimVersion := Some "manual_path";
        NvimVersion.error := None |}
  /\ ~ In FindNvim (snd (constructor w st ad key)).
Proof.
  unfold constructor, resolveNvimBinary, reportNvimBinary. rewrite Hoverride. simpl.
  rewrite Hoverride. simpl. split; [ reflexivity | split; [ reflexivity | ] ].
  destruct (JS.truthy_opt (searchForBinary w (terminal st))); simpl;
    intros [H | [H | [H | H]]]; try discriminate H; try contradiction.
  destruct H as [H | H]; [ discriminate H | contradiction ].
Qed.

Lemma constructor_manual_path_witness :
  resolveNvimBinary quietWorld manualSettings =
    ({| NvimVersion.path := "/opt/nvim/bin/nvim";
        NvimVersion.nvimVersion := Some "manual_path";
        NvimVersion.error := None |},
     [ConsoleLog "Using manual Neovim path: /opt/nvim/bin/nvim"])
  /\ nvimBinary (fst (constructor quietWorld manualSettings vaultAdapter None)) =
     {| NvimVersion.path := "/opt/nvim/bin/nvim";
        NvimVersion.nvimVersion := Some "manual_path";
        NvimVersion.error := None |}
  /\ ~ In FindNvim (snd (constructor quietWorld manualSettings vaultAdapter None)).
Proof.
  apply (constructor_manual_path quietWorld manualSettings vaultAdapter None).
  reflexivity.
Defined.

(** C8 as stated fails: the version marker of an override path is not
    [manual]. *)
Lemma constructor_marker_not_manual :
  JS.truthy (pathToBinary manualSettings) = true
  /\ NvimVersion.nvimVersion
       (nvimBinary (fst (constructor quietWorld manualSettings vaultAdapter None)))
     <> Some "manual".
Proof. split; [ reflexivity | discriminate ]. Qed.

(* ------------------------------------------------------------------------- *)
(** ** Strings: splitting, suffixes, substrings *)

Lemma split_nonempty c s : JS.split c s <> [].
Proof.
  destruct s as [|a s]; simpl; [ discriminate | ].
  destruct (Ascii.eqb a c); [ discriminate | ].
  destruct (JS.split c s); discriminate.
Qed.

(** Joining the pieces of [split] with the separator gives the string back,
    and there is always at least one piece. *)
Theorem split_join (c : ascii) (s : string) :
  String.concat (String c EmptyString) (JS.split c s) = s
  /\ JS.split c s <> [].
Proof.
  split; [ | apply split_nonempty ].
  induction s as [|a s IH]; [ reflexivity | ].
  cbn [JS.split]. pose proof (split_nonempty c s) as Hne.
  destruct (Ascii.eqb a c) eqn:Hac.
  - apply Ascii.eqb_eq in Hac. subst a.
    destruct (JS.split c s) as [|p ps]; [ contradiction | ].
    change (String.concat (String c EmptyString) (EmptyString :: p :: ps))
      with (String c (String.concat (String c EmptyString) (p :: ps))).
    rewrite IH. reflexivity.
  - destruct (JS.split c s) as [|p ps]; [ contradiction | ].
    rewrite <- IH. destruct ps; reflexivity.
Qed.

Lemma split_app c a b :
  JS.split c (a ++ String c b) = (JS.split c a ++ JS.split c b)%list.
Proof.
  induction a as [|x a IH]; cbn [append JS.split].
  - rewrite Ascii.eqb_refl. reflexivity.
  - destruct (Ascii.eqb x c); rewrite IH; [ reflexivity | ].
    pose proof (split_nonempty c a) as Hne.
    destruct (JS.split c a) as [|p ps]; [ contradiction | reflexivity ].
Qed.

Lemma split_no_separator c s : has_char c s = false -> JS.split c s = [s].
Proof.
  induction s as [|a s IH]; [ reflexivity | ].
  cbn [has_char JS.split]. intro H. apply orb_false_iff in H. destruct H as [Ha Hs].
  rewrite Ha, (IH Hs). reflexivity.
Qed.

Lemma at_last_app l1 l2 : l2 <> [] -> JS.at_last (l1 ++ l2)%list = JS.at_last l2.
Proof.
  intro Hne. induction l1 as [|x l1 IH]; [ reflexivity | ].
  cbn [app JS.at_last]. rewrite IH.
  destruct (l1 ++ l2)%list eqn:E; [ | reflexivity ].
  apply app_eq_nil in E. destruct E as [_ E]. contradiction.
Qed.

(** The port that [openFile] reads off a listen address is what follows the
    last colon; an address without a colon is its own port. *)
Theorem port_of_listen_address (host port : string)
    (Hport : has_char ":" port = false) :
  JS.at_last (JS.split ":" (host ++ ":" ++ port)) = Some port
  /\ JS.at_last (JS.split ":" port) = Some port.
Proof.
  split.
  - change (host ++ ":" ++ port) with (host ++ String ":" port).
    rewrite split_app, at_last_app by apply split_nonempty.
    rewrite (split_no_separator _ _ Hport). reflexivity.
  - rewrite (split_no_separator _ _ Hport). reflexivity.
Qed.

Lemma port_of_listen_address_witness :
  JS.at_last (JS.split ":" ("127.0.0.1" ++ ":" ++ "7777")) = Some "7777"
  /\ JS.at_last (JS.split ":" "7777") = Some "7777".
Proof. apply (port_of_listen_address "127.0.0.1" "7777"). reflexivity. Defined.

Lemma length_append a b : String.length (a ++ b) = String.length a + String.length b.
Proof. induction a as [|x a IH]; simpl; [ | rewrite IH ]; reflexivity. Qed.

Lemma substring_whole s : substring 0 (String.length s) s = s.
Proof. induction s as [|x s IH]; simpl; [ | rewrite IH ]; reflexivity. Qed.

Lemma substring_after a b : substring (String.length a) (String.length b) (a ++ b) = b.
Proof.
  induction a as [|x a IH]; simpl; [ apply substring_whole | exact IH ].
Qed.

Lemma substring_cut s : forall k,
  k <= String.length s ->
  substring 0 k s ++ substring k (String.length s - k) s = s.
Proof.
  induction s as [|x s IH]; intros k Hk.
  - destruct k; [ reflexivity | simpl in Hk; lia ].
  - destruct k as [|k].
    + change (substring 0 0 (String x s)) with EmptyString.
      rewrite Nat.sub_0_r. cbn [append]. apply substring_whole.
    + simpl in *. rewrite IH by lia. reflexivity.
Qed.

(** [endsWith] holds exactly of the strings that are something followed by
    the suffix. *)
Theorem endsWith_iff (s suffix : string) :
  JS.endsWith s suffix = true <-> exists stem, s = stem ++ suffix.
Proof.
  unfold JS.endsWith. split.
  - destruct (Nat.leb_spec (String.length suffix) (String.length s)) as [Hle|];
      [ | discriminate ].
    intro H. apply String.eqb_eq in H.
    pose proof (substring_cut s (String.length s - String.length suffix)) as Hcut.
    replace (String.length s - (String.length s - String.length suffix))
      with (String.length suffix) in Hcut by lia.
    rewrite H in Hcut.
    exists (substring 0 (String.length s - String.length suffix) s).
    symmetry. apply Hcut. lia.
  - intros [stem ->]. rewrite length_append.
    destruct (Nat.leb_spec (String.length suffix)
                (String.length stem + String.length suffix)); [ | lia ].
    replace (String.length stem + String.length suffix - String.length suffix)
      with (String.length stem) by lia.
    rewrite substring_after. apply String.eqb_refl.
Qed.

(** A file is taken for a composite document exactly when its extension is
    [md] and its path is some stem followed by [.excalidraw.md]. *)
Theorem isExcalidrawMd_iff (file : TFile.t) :
  isExcalidrawMd file = true <->
  TFile.extension file = "md"
  /\ exists stem, TFile.path file = stem ++ ".excalidraw.md".
Proof.
  unfold isExcalidrawMd. rewrite andb_true_iff, String.eqb_eq, endsWith_iff.
  reflexivity.
Qed.

Lemma startsWith_iff s p : JS.startsWith s p = true <-> exists rest, s = p ++ rest.
Proof.
  revert s. induction p as [|a p IH]; intro s.
  - destruct s; simpl; (split; [ intros _; eexists; reflexivity | reflexivity ]).
  - destruct s as [|b s]; cbn [JS.startsWith append].
    + split; [ discriminate | intros [rest H]; discriminate H ].
    + rewrite andb_true_iff, Ascii.eqb_eq, IH. split.
      * intros [-> [rest ->]]. exists rest. reflexivity.
      * intros [rest H]. injection H as -> ->. split; [ reflexivity | eauto ].
Qed.

(** [includes] on strings holds exactly when the text occurs somewhere in the
    string. *)
Theorem str_includes_iff (s sub : string) :
  JS.str_includes s sub = true <-> exists before rest, s = before ++ sub ++ rest.
Proof.
  induction s as [|x s IH].
  - cbn [JS.str_includes]. rewrite orb_false_r, startsWith_iff. split.
    + intros [rest H]. exists EmptyString, rest. exact H.
    + intros [before [rest H]]. destruct before as [|y before]; [ eauto | discriminate H ].
  - cbn [JS.str_includes]. rewrite orb_true_iff, startsWith_iff, IH. split.
    + intros [[rest H] | [before [rest H]]].
      * exists EmptyString, rest. exact H.
      * exists (String x before), rest. rewrite H. reflexivity.
    + intros [before [rest H]]. destruct before as [|y before].
      * left. exists rest. exact H.
      * right. injection H as _ H. eauto.
Qed.

(* ------------------------------------------------------------------------- *)
(** ** [newInstance]: when it spawns and what it leaves behind *)

Lemma spawnPlan_quiet w termPath nvimPath listenArg s :
  filter is_external (trace (spawnPlan w termPath nvimPath listenArg s)) = [].
Proof.
  unfold spawnPlan, bind, ret, console_log, console_warn, emit, trace.
  repeat match goal with
         | |- context [if ?b then _ else _] => destruct b
         end; reflexivity.
Qed.

(** The whole of a launch with both binaries resolved: the object it leaves
    and the calls it makes, by the answers of [spawn] and [attach]. *)
Lemma newInstance_configured w ad s :
  process s = None -> configured s = true ->
  state_after (newInstance w ad s) =
    match launchAnswer w ad s with
    | Thrown _ => cleared s
    | Returned cp =>
        match pid cp with
        | None => set_process None s
        | Some _ =>
            match attach_fails w cp with
            | Some _ => cleared s
            | None => launched cp s
            end
        end
    end
  /\ filter is_external (trace (newInstance w ad s)) =
     launchEffect w ad s ::
     match launchAnswer w ad s with
     | Thrown _ => []
     | Returned cp =>
         match pid cp with
         | None => []
         | Some _ =>
             (handlersRegistered ++ Attach cp ::
              match attach_fails w cp with
              | Some _ => []
              | None => [SetTimeout 1500]
              end)%list
         end
     end.
Proof.
  intros Hp Hc. unfold configured in Hc. apply andb_true_iff in Hc.
  destruct Hc as [Htb Hnv].
  unfold launchAnswer, launchEffect, launchCommand, newInstance, bind, gets,
    state_after, trace, result; simpl.
  rewrite Hp; simpl. rewrite Htb; simpl. rewrite Hnv; simpl.
  match goal with |- context [spawnPlan ?a ?b ?c ?d s] =>
    pose proof (spawnPlan_readOnly a b c d s) as Hro;
    pose proof (spawnPlan_quiet a b c d s) as Hq;
    destruct (spawnPlan a b c d s) as [[plan s'] tp]
  end.
  unfold state_after, trace in *; simpl in *. subst s'.
  unfold call, spawnCatch, bind, modify, console_log, console_error, new_Notice, emit;
    simpl.
  match goal with |- context [spawn ?a ?b ?c ?d] => destruct (spawn a b c d) as [cp|e] end;
    simpl;
    [ destruct (pid cp) as [n|]; simpl; [ destruct (attach_fails w cp); simpl | ] | ];
    rewrite filter_app, Hq; split; reflexivity.
Qed.

(** [newInstance] calls [spawn] exactly when no process is owned and both
    binaries are resolved, and then once, with [launchCommand]. *)
Theorem newInstance_spawns_iff_configured (w : World) (ad : FileSystemAdapter)
    (s : Neovim) :
  filter is_spawn (trace (newInstance w ad s)) =
  if negb (is_some (process s)) && configured s then [launchEffect w ad s] else [].
Proof.
  destruct (process s) as [cp|] eqn:Hp.
  - unfold newInstance, bind, gets, trace; simpl. rewrite Hp. reflexivity.
  - destruct (configured s) eqn:Hc; simpl.
    + destruct (newInstance_configured w ad s Hp Hc) as [_ Ht].
      assert (Hsub : forall t, filter is_spawn (filter is_external t) = filter is_spawn t).
      { induction t as [|e t IH]; [ reflexivity | ].
        destruct e; simpl; rewrite ?IH; reflexivity. }
      rewrite <- Hsub, Ht.
      unfold launchEffect. destruct (launchCommand w ad s) as [[c a] o]. simpl.
      destruct (launchAnswer w ad s) as [cp|e]; [ | reflexivity ].
      destruct (pid cp); [ | reflexivity ].
      destruct (attach_fails w cp); reflexivity.
    + unfold configured in Hc.
      unfold newInstance, bind, gets, trace, new_Notice, console_error, emit; simpl.
      rewrite Hp; simpl.
      destruct (JS.truthy_opt (termBinary s)); simpl in *; [ | reflexivity ].
      rewrite Hc. reflexivity.
Qed.

(** Without a resolved terminal or a resolved Neovim path, [newInstance]
    changes nothing, makes no call beyond the console, and notifies once. *)
Theorem newInstance_refuses_unconfigured (w : World) (ad : FileSystemAdapter)
    (s : Neovim)
    (Hidle : process s = None) (Hmissing : configured s = false) :
  state_after (newInstance w ad s) = s
  /\ filter is_external (trace (newInstance w ad s)) = []
  /\ length (notices (trace (newInstance w ad s))) = 1.
Proof.
  unfold configured in Hmissing.
  unfold newInstance, bind, gets, state_after, trace, notices, new_Notice,
    console_error, emit; simpl.
  rewrite Hidle; simpl.
  destruct (JS.truthy_opt (termBinary s)); simpl in *;
    [ rewrite Hmissing | ]; repeat split.
Qed.

Lemma newInstance_refuses_unconfigured_witness :
  state_after (newInstance externalWorld vaultAdapter unresolved) = unresolved
  /\ filter is_external (trace (newInstance externalWorld vaultAdapter unresolved)) = []
  /\ length (notices (trace (newInstance externalWorld vaultAdapter unresolved))) = 1.
Proof.
  apply (newInstance_refuses_unconfigured externalWorld vaultAdapter unresolved);
    reflexivity.
Defined.

(** A launch that goes through (spawn returns a process with an id, attach
    does not throw) leaves that process and the client attached to it, and
    nothing else changed; its calls are, in order: spawn, the four handler
    registrations, attach, the 1500 ms timer. *)
Theorem newInstance_launches (w : World) (ad : FileSystemAdapter) (s : Neovim)
    (cp : ChildProcess)
    (Hidle : process s = None) (Hconf : configured s = true)
    (Hspawn : launchAnswer w ad s = Returned cp)
    (Hpid : pid cp <> None)
    (Hattach : attach_fails w cp = None) :
  state_after (newInstance w ad s) = launched cp s
  /\ filter is_external (trace (newInstance w ad s)) =
     (launchEffect w ad s :: handlersRegistered ++ [Attach cp; SetTimeout 1500])%list.
Proof.
  destruct (newInstance_configured w ad s Hidle Hconf) as [Hs Ht].
  rewrite Hs, Ht, Hspawn, Hattach.
  destruct (pid cp); [ split; reflexivity | contradiction ].
Qed.

Lemma newInstance_launches_witness :
  state_after (newInstance quietWorld vaultAdapter idle)
  = launched {| pid := Some 4242%N |} idle
  /\ filter is_external (trace (newInstance quietWorld vaultAdapter idle)) =
     (launchEffect quietWorld vaultAdapter idle
      :: handlersRegistered ++ [Attach {| pid := Some 4242%N |}; SetTimeout 1500])%list.
Proof.
  apply (newInstance_launches quietWorld vaultAdapter idle {| pid := Some 4242%N |});
    [ reflexivity | reflexivity | reflexivity | discriminate | reflexivity ].
Defined.

Lemma filter_external (f : Effect -> bool) (t : list Effect) :
  (forall e, f e = true -> is_external e = true) ->
  filter f (filter is_external t) = filter f t.
Proof.
  intro Hf. induction t as [|e t IH]; [ reflexivity | ].
  cbn [filter]. destruct (is_external e) eqn:He; cbn [filter]; rewrite IH.
  - reflexivity.
  - destruct (f e) eqn:Hfe; [ | reflexivity ].
    rewrite (Hf e Hfe) in He. discriminate He.
Qed.

Lemma quit_or_kill_external e : is_quit_or_kill e = true -> is_external e = true.
Proof. destruct e; simpl; intro H; congruence. Qed.

Lemma spawnPlan_no_notice w termPath nvimPath listenArg s :
  notices (trace (spawnPlan w termPath nvimPath listenArg s)) = [].
Proof.
  unfold spawnPlan, bind, ret, console_log, console_warn, emit, trace, notices.
  repeat match goal with
         | |- context [if ?b then _ else _] => destruct b
         end; reflexivity.
Qed.

(** What a launch with both binaries resolved tells the user right away:
    nothing when it goes through, one notice when it does not. *)
Lemma newInstance_configured_notices w ad s :
  process s = None -> configured s = true ->
  notices (trace (newInstance w ad s)) =
    match launchAnswer w ad s with
    | Thrown e => [Notice ("Error trying to spawn Neovim: " ++ message e) 10000]
    | Returned cp =>
        match pid cp with
        | None => [Notice "Failed to create Neovim process object." 7000]
        | Some _ =>
            match attach_fails w cp with
            | Some e => [Notice ("Error trying to spawn Neovim: " ++ message e) 10000]
            | None => []
            end
        end
    end.
Proof.
  intros Hp Hc. unfold configured in Hc. apply andb_true_iff in Hc.
  destruct Hc as [Htb Hnv].
  unfold launchAnswer, launchCommand, newInstance, bind, gets, trace, result; simpl.
  rewrite Hp; simpl. rewrite Htb; simpl. rewrite Hnv; simpl.
  match goal with |- context [spawnPlan ?a ?b ?c ?d s] =>
    pose proof (spawnPlan_readOnly a b c d s) as Hro;
    pose proof (spawnPlan_no_notice a b c d s) as Hq;
    destruct (spawnPlan a b c d s) as [[plan s'] tp]
  end.
  unfold state_after, trace, notices in *; simpl in *. subst s'.
  unfold call, spawnCatch, bind, modify, console_log, console_error, new_Notice, emit;
    simpl.
  match goal with |- context [spawn ?a ?b ?c ?d] => destruct (spawn a b c d) as [cp|e] end;
    simpl;
    [ destruct (pid cp) as [n|]; simpl; [ destruct (attach_fails w cp); simpl | ] | ];
    rewrite filter_app, Hq; reflexivity.
Qed.

(** A launch that does not go through, from an object that owns nothing,
    leaves the object as it was, sets no timer, notifies once, and calls
    neither [quit] nor [kill]: a process that was spawned before [attach]
    threw is not terminated. *)
Theorem newInstance_failed_launch (w : World) (ad : FileSystemAdapter) (s : Neovim)
    (Hprocess : process s = None) (Hinstance : instance s = None)
    (Hconf : configured s = true)
    (Hfails : launchFails w ad s = true) :
  state_after (newInstance w ad s) = s
  /\ length (notices (trace (newInstance w ad s))) = 1
  /\ ~ In (SetTimeout 1500) (trace (newInstance w ad s))
  /\ filter is_quit_or_kill (trace (newInstance w ad s)) = [].
Proof.
  destruct (newInstance_configured w ad s Hprocess Hconf) as [Hs Ht].
  rewrite <- (filter_external is_quit_or_kill) by apply quit_or_kill_external.
  assert (Hin : ~ In (SetTimeout 1500) (filter is_external (trace (newInstance w ad s)))
                -> ~ In (SetTimeout 1500) (trace (newInstance w ad s))).
  { intros Hn Hi. apply Hn, filter_In. split; [ exact Hi | reflexivity ]. }
  cut (state_after (newInstance w ad s) = s
       /\ length (notices (trace (newInstance w ad s))) = 1
       /\ ~ In (SetTimeout 1500) (filter is_external (trace (newInstance w ad s)))
       /\ filter is_quit_or_kill (filter is_external (trace (newInstance w ad s))) = []);
    [ tauto | clear Hin ].
  rewrite Hs, Ht, (newInstance_configured_notices w ad s Hprocess Hconf).
  pose proof (cleared_idle s Hinstance Hprocess) as Hcl.
  assert (Hsp : set_process None s = s).
  { destruct s; simpl in *; subst; reflexivity. }
  unfold launchFails in Hfails. unfold launchEffect.
  destruct (launchCommand w ad s) as [[c a] o].
  destruct (launchAnswer w ad s) as [cp|e]; simpl.
  - destruct (pid cp); simpl.
    + destruct (attach_fails w cp); simpl; [ | discriminate ].
      repeat split; auto. intros [H|[H|[H|[H|[H|[H|H]]]]]]; try discriminate H; contradiction.
    + repeat split; auto. intros [H|H]; [ discriminate H | contradiction ].
  - repeat split; auto. intros [H|H]; [ discriminate H | contradiction ].
Qed.

Lemma newInstance_failed_launch_witness :
  state_after (newInstance attachThrowsWorld vaultAdapter idle) = idle
  /\ length (notices (trace (newInstance attachThrowsWorld vaultAdapter idle))) = 1
  /\ ~ In (SetTimeout 1500) (trace (newInstance attachThrowsWorld vaultAdapter idle))
  /\ filter is_quit_or_kill (trace (newInstance attachThrowsWorld vaultAdapter idle)) = [].
Proof.
  apply (newInstance_failed_launch attachThrowsWorld vaultAdapter idle); reflexivity.
Defined.

(** *** The environment of the spawned terminal *)

Lemma lookup_assign k k' v obj :
  lookup k (JS.assign k' v obj) = if k' =? k then Some v else lookup k obj.
Proof.
  induction obj as [|[k0 v0] obj IH]; cbn [JS.assign lookup].
  - destruct (String.eqb_spec k' k); reflexivity.
  - destruct (String.eqb_spec k0 k') as [-> | Hne]; cbn [lookup].
    + destruct (k' =? k); reflexivity.
    + rewrite IH. destruct (String.eqb_spec k0 k) as [-> | Hne'].
      * apply String.eqb_neq in Hne. rewrite String.eqb_sym in Hne. rewrite Hne.
        reflexivity.
      * reflexivity.
Qed.

(** With an API key configured, the spawned terminal's environment maps
    [OBSIDIAN_REST_API_KEY] to it, whatever the host environment had under
    that name, and every other name as the host environment does; without a
    key the environment is the host's. *)
Theorem launch_environment (w : World) (ad : FileSystemAdapter) (s : Neovim) :
  (JS.truthy_opt (apiKey s) = true ->
   lookup "OBSIDIAN_REST_API_KEY" (env (snd (launchCommand w ad s))) = apiKey s
   /\ forall name, name <> "OBSIDIAN_REST_API_KEY" ->
        lookup name (env (snd (launchCommand w ad s))) = lookup name (processEnv w))
  /\ (JS.truthy_opt (apiKey s) = false ->
      env (snd (launchCommand w ad s)) = processEnv w).
Proof.
  unfold launchCommand; simpl. split; intro Hkey; rewrite Hkey; [ | reflexivity ].
  unfold JS.spread; simpl. split.
  - rewrite lookup_assign, String.eqb_refl.
    destruct (apiKey s); [ reflexivity | discriminate ].
  - intros name Hne. rewrite lookup_assign.
    apply not_eq_sym, String.eqb_neq in Hne. rewrite Hne. reflexivity.
Qed.

(* ------------------------------------------------------------------------- *)
(** ** What every step keeps *)

Lemma newInstance_state_cases w ad s :
  state_after (newInstance w ad s) = s
  \/ (process s = None /\ state_after (newInstance w ad s) = cleared s)
  \/ (process s = None /\ state_after (newInstance w ad s) = set_process None s)
  \/ (exists cp, process s = None /\ configured s = true /\ pid cp <> None
                 /\ state_after (newInstance w ad s) = launched cp s).
Proof.
  destruct (process s) as [cp|] eqn:Hp.
  - left. unfold newInstance, bind, gets, state_after; simpl. rewrite Hp. reflexivity.
  - destruct (configured s) eqn:Hc.
    + destruct (newInstance_configured w ad s Hp Hc) as [Hs _]. rewrite Hs.
      destruct (launchAnswer w ad s) as [cp|e]; [ | right; left; auto ].
      destruct (pid cp) as [n|] eqn:Hpid; [ | right; right; left; auto ].
      destruct (attach_fails w cp); [ right; left; auto | ].
      right; right; right. exists cp. rewrite Hpid. repeat split; congruence.
    + left. unfold configured in Hc.
      unfold newInstance, bind, gets, state_after, new_Notice, console_error, emit;
        simpl.
      rewrite Hp; simpl.
      destruct (JS.truthy_opt (termBinary s)); simpl in *; [ rewrite Hc | ];
        reflexivity.
Qed.

Lemma step_state_cases w st s :
  step w st s = s
  \/ step w st s = cleared s
  \/ (process s = None /\ step w st s = set_process None s)
  \/ (exists cp, process s = None /\ configured s = true /\ pid cp <> None
                 /\ step w st s = launched cp s).
Proof.
  destruct st; simpl.
  - destruct (newInstance_state_cases w adapter0 s) as [H|[[_ H]|[H|H]]]; auto.
  - left. apply openFile_readOnly.
  - left. apply getBuffers_readOnly.
  - right; left. apply close_state.
  - rewrite fire_state. unfold guardedClear.
    destruct ev; auto; destruct (process s); auto.
  - destruct (connectionTest_state w s); auto.
  - destruct (connectionTestSettled_state w answer s); auto.
Qed.

(** No step changes the settings, the resolved binaries, the adapter or the
    API key: only the constructor writes them. *)
Theorem step_keeps_configuration (w : World) (st : Step) (s : Neovim) :
  sameConfig s (step w st s).
Proof.
  destruct (step_state_cases w st s) as [H|[H|[[_ H]|[cp [_ [_ [_ H]]]]]]];
    rewrite H; repeat split.
Qed.

Lemma step_nvimBinary w st s : nvimBinary (step w st s) = nvimBinary s.
Proof.
  destruct (step_state_cases w st s) as [H|[H|[[_ H]|[cp [_ [_ [_ H]]]]]]];
    rewrite H; reflexivity.
Qed.

(** In every state the object can be in, either nothing is owned, or the
    session is the client attached to the owned process, that process has an
    id, and the terminal and Neovim binaries are resolved. *)
Theorem reachable_supervised (s : Neovim) : reachable s -> supervised s.
Proof.
  induction 1 as [w st ad key | w stp s Hs IH].
  - unfold constructor. destruct (resolveNvimBinary w st). exact I.
  - destruct (step_state_cases w stp s) as [H|[H|[[Hp H]|[cp [Hp [Hc [Hpid H]]]]]]];
      rewrite H; clear H.
    + exact IH.
    + exact I.
    + unfold supervised in *. simpl. rewrite Hp in IH.
      destruct (instance s); [ contradiction | exact I ].
    + unfold supervised, launched, configured in *. simpl.
      apply andb_true_iff in Hc. tauto.
Qed.

Lemma reachable_supervised_witness : supervised running.
Proof.
  apply (reachable_supervised running).
  apply (reach_step quietWorld (CallNewInstance vaultAdapter) idle).
  apply (reach_constructed quietWorld mdSettings vaultAdapter None).
Defined.

Lemma run_app steps1 steps2 s :
  fst (run (steps1 ++ steps2) s) = fst (run steps2 (fst (run steps1 s))).
Proof.
  revert s. induction steps1 as [|[w st] steps1 IH]; intro s; [ reflexivity | ].
  cbn [app run]. specialize (IH (step w st s)).
  destruct (run (steps1 ++ steps2) (step w st s)) as [s1 t1].
  destruct (run steps1 (step w st s)) as [s2 t2]. exact IH.
Qed.

Lemma run_keeps_configuration steps s : sameConfig s (fst (run steps s)).
Proof.
  revert s. induction steps as [|[w st] steps IH]; intro s.
  - repeat split.
  - cbn [run]. specialize (IH (step w st s)).
    destruct (run steps (step w st s)) as [s1 t1]. simpl in *.
    assert (H : sameConfig s (step w st s)).
    { destruct (step_state_cases w st s) as [H|[H|[[_ H]|[cp [_ [_ [_ H]]]]]]];
        rewrite H; repeat split. }
    unfold sameConfig in *. intuition congruence.
Qed.

(** Whatever steps came before, [close] leaves both references absent and
    the configuration that of the start; from an object that owned nothing,
    any run that ends in [close] gives exactly that object back. *)
Theorem close_resets (s : Neovim) (steps : list (World * Step)) (w : World) :
  fst (run (steps ++ [(w, CallClose)]) s) = cleared s
  /\ (instance s = None -> process s = None ->
      fst (run (steps ++ [(w, CallClose)]) s) = s).
Proof.
  assert (E : fst (run (steps ++ [(w, CallClose)]) s) = cleared s).
  { rewrite run_app. cbn [run fst step]. rewrite close_state.
    pose proof (run_keeps_configuration steps s) as H.
    destruct (fst (run steps s)) as [i p st nv tb ad key].
    unfold sameConfig in H. simpl in H. destruct H as [-> [-> [-> [-> ->]]]].
    reflexivity. }
  split; [ exact E | ].
  intros Hi Hp. rewrite E. apply cleared_idle; assumption.
Qed.

(* ------------------------------------------------------------------------- *)
(** ** [openFile]: when the command is issued, when the port is probed *)

(** [openFile] runs the remote command exactly when the file passes the
    filter, the binary path is resolved, and the pair is owned or the probe
    succeeds, and then once; it probes exactly when the first two hold,
    nothing is owned and the listen address yields a port, and then once,
    that port; it never spawns, quits or kills. *)
Theorem openFile_command_iff (w : World) (file : TFile.t) (s : Neovim) :
  execFiles (trace (openFile w (Some file) s)) =
    (if result (fileTypeFilter file s)
        && JS.truthy (NvimVersion.path (nvimBinary s))
        && (owned s || probeSucceeds w s)
     then [remoteCommand s file] else [])
  /\ filter is_probe (trace (openFile w (Some file) s)) =
     (if result (fileTypeFilter file s)
         && JS.truthy (NvimVersion.path (nvimBinary s))
         && negb (owned s)
         && JS.truthy_opt (JS.at_last (JS.split ":" (listenOn (settings s))))
      then [IsPortInUse
              (JS.show_opt (JS.at_last (JS.split ":" (listenOn (settings s)))))]
      else [])
  /\ filter is_spawn (trace (openFile w (Some file) s)) = []
  /\ filter is_quit_or_kill (trace (openFile w (Some file) s)) = [].
Proof.
  run_openFile. simpl.
  filter_cases file s;
    destruct (JS.truthy (NvimVersion.path (nvimBinary s))); simpl;
    try (repeat split; fail);
    destruct (is_some (instance s) && is_some (process s))%bool; simpl;
    try probe_cases w s;
    try match goal with
        | |- context [execFile w ?a ?b] => destruct (execFile w a b)
        end;
    repeat split.
Qed.

(** A file that is not a composite document passes the filter exactly when
    its extension is in the supported set; when it is not, the request ends
    with one console line and nothing else. *)
Theorem openFile_plain_extension (w : World) (file : TFile.t) (s : Neovim)
    (Hplain : isExcalidrawMd file = false) :
  result (fileTypeFilter file s)
  = JS.includes (supportedFileTypes (settings s)) (TFile.extension file)
  /\ (JS.includes (supportedFileTypes (settings s)) (TFile.extension file) = false ->
      openFile w (Some file) s =
      (tt, s, [ConsoleLog ("Skipping unsupported file type '" ++ TFile.extension file
                           ++ "': " ++ TFile.path file)])).
Proof.
  run_openFile. rewrite Hplain. simpl.
  destruct (JS.includes (supportedFileTypes (settings s)) (TFile.extension file)); simpl.
  - split; [ reflexivity | discriminate ].
  - split; reflexivity.
Qed.

Lemma openFile_plain_extension_witness :
  result (fileTypeFilter todayNote toggleOnly)
  = JS.includes (supportedFileTypes (settings toggleOnly)) (TFile.extension todayNote)
  /\ (JS.includes (supportedFileTypes (settings toggleOnly)) (TFile.extension todayNote)
      = false ->
      openFile externalWorld (Some todayNote) toggleOnly =
      (tt, toggleOnly,
       [ConsoleLog ("Skipping unsupported file type '" ++ TFile.extension todayNote
                    ++ "': " ++ TFile.path todayNote)])).
Proof.
  apply (openFile_plain_extension externalWorld todayNote toggleOnly). reflexivity.
Defined.

(* ------------------------------------------------------------------------- *)
(** ** The timer of a launch, the command's callback, the lifecycle notices *)

(** The delayed connection test: without a session it does nothing; when
    [eval] answers, it notifies and leaves the object alone; when [eval]
    throws, it notifies and then does exactly what [close] does. *)
Theorem connectionTest_outcomes (w : World) (s : Neovim) :
  (instance s = None -> connectionTest w s = (tt, s, []))
  /\ (forall client,
        instance s = Some client -> rpc_eval w client "1" = Returned tt ->
        connectionTest w s =
        (tt, s, [RpcEval client "1";
                 ConsoleLog "Neovim RPC connection test successful.";
                 Notice "Neovim instance started and connected." 3000]))
  /\ (forall client e,
        instance s = Some client -> rpc_eval w client "1" = Thrown e ->
        state_after (connectionTest w s) = state_after (close w s)
        /\ trace (connectionTest w s) =
           (RpcEval client "1"
            :: ConsoleError ("Neovim RPC connection failed after spawn: " ++ message e)
            :: Notice ("Failed to establish RPC connection: " ++ message e) 7000
            :: trace (close w s))%list).
Proof.
  unfold connectionTest, connectionTestSettled, bind, gets, call, console_log,
    console_error, new_Notice, emit, state_after, trace.
  split; [ | split ].
  - intros ->. reflexivity.
  - intros client -> ->. reflexivity.
  - intros client e -> ->. simpl.
    destruct (close w s) as [[u s'] t]. split; reflexivity.
Qed.

(** The completion callback of the remote command never touches the object
    and never calls out again (no retry); a failure gives exactly one notice,
    a success none; a missing executable is reported as such whatever stderr
    says. *)
Theorem execFileCallback_reports_once
    (nvimPath listenAddress absolutePath : string) (args : list string)
    (file : TFile.t) (error : option JsError) (stdout stderr : string) (s : Neovim) :
  state_after (execFileCallback nvimPath listenAddress absolutePath args file
                 error stdout stderr s) = s
  /\ filter is_external
       (trace (execFileCallback nvimPath listenAddress absolutePath args file
                 error stdout stderr s)) = []
  /\ length (notices
               (trace (execFileCallback nvimPath listenAddress absolutePath args file
                         error stdout stderr s)))
     = (if is_some error then 1 else 0)
  /\ (forall e, error = Some e -> has_code e "ENOENT" = true ->
      notices (trace (execFileCallback nvimPath listenAddress absolutePath args file
                        error stdout stderr s)) =
      [Notice ("Neovim executable not found at: " ++ nvimPath) 10000]).
Proof.
  unfold execFileCallback, bind, ret, console_log, console_warn, console_error,
    new_Notice, emit, state_after, trace, notices.
  destruct error as [e|]; simpl.
  - repeat split. intros e' [= <-] Hcode. rewrite Hcode. reflexivity.
  - destruct (JS.truthy stdout), (JS.truthy stderr); simpl; repeat split;
      intros e' H; discriminate H.
Qed.

(** A lifecycle event never calls out (nothing is killed, nothing is
    restarted); [close], [exit] and [disconnect] never notify the user, an
    [error] always does, once, naming the terminal when it was not found. *)
Theorem lifecycle_event_effects (termPath : string) (ev : LifecycleEvent) (s : Neovim) :
  filter is_external (trace (fire termPath ev s)) = []
  /\ length (notices (trace (fire termPath ev s)))
     = match ev with
       | EvError _ => 1
       | _ => 0
       end
  /\ (forall err, ev = EvError err -> has_code err "ENOENT" = true ->
      notices (trace (fire termPath ev s)) =
      [Notice ("Could not find executable: " ++ termPath
               ++ ". Is it installed and in PATH?") 10000]).
Proof.
  unfold fire, on_error, on_close, on_exit, on_disconnect, bind, gets, modify, ret,
    console_log, console_error, new_Notice, emit, trace, notices.
  destruct ev as [err | c sg | c sg | ]; simpl.
  - repeat split. intros err' [= <-] Hcode. rewrite Hcode. reflexivity.
  - destruct (process s); simpl; repeat split; intros err' H; discriminate H.
  - destruct (process s); simpl; repeat split; intros err' H; discriminate H.
  - destruct (process s); simpl; repeat split; intros err' H; discriminate H.
Qed.

(* ------------------------------------------------------------------------- *)
(** ** An object without a Neovim path *)

Lemma close_no_launch w s : filter is_launch (trace (close w s)) = [].
Proof.
  unfold close, bind, gets, modify, call, ret, console_log, console_error, new_Notice,
    emit, trace.
  destruct s as [i p st nv tb ad key]; destruct i as [client|], p as [cp|]; simpl;
    try destruct (rpc_quit w client); reflexivity.
Qed.

Lemma step_no_launch w st s :
  JS.truthy (NvimVersion.path (nvimBinary s)) = false ->
  filter is_launch (stepTrace w st s) = [].
Proof.
  intro Hpath. destruct st as [ad | file | | | termPath ev | | answer]; cbn [stepTrace].
  - unfold newInstance, bind, gets, trace, new_Notice, console_log, console_error, emit;
      simpl.
    destruct (process s); simpl; [ reflexivity | ].
    destruct (JS.truthy_opt (termBinary s)); simpl; [ | reflexivity ].
    rewrite Hpath. reflexivity.
  - destruct file as [file|]; [ | reflexivity ].
    run_openFile. simpl. filter_cases file s; try reflexivity;
      rewrite Hpath; reflexivity.
  - unfold getBuffers, bind, gets, call, ret, console_error, new_Notice, emit, trace;
      simpl.
    destruct (instance s) as [client|]; [ | reflexivity ].
    destruct (rpc_buffers w client); reflexivity.
  - apply close_no_launch.
  - unfold fire, on_error, on_close, on_exit, on_disconnect, bind, gets, modify, ret,
      console_log, console_error, new_Notice, emit, trace.
    destruct ev; simpl; try destruct (process s); reflexivity.
  - unfold connectionTest, connectionTestSettled, bind, gets, call, ret, console_log,
      console_error, new_Notice, emit, trace; simpl.
    destruct (instance s) as [client|]; [ | reflexivity ].
    destruct (rpc_eval w client "1"); simpl; [ reflexivity | ].
    pose proof (close_no_launch w s) as H. unfold trace in H.
    destruct (close w s) as [[u s'] t]. exact H.
  - unfold connectionTestSettled, bind, console_log, console_error, new_Notice, emit,
      trace.
    destruct answer; simpl; [ reflexivity | ].
    pose proof (close_no_launch w s) as H. unfold trace in H.
    destruct (close w s) as [[u s'] t]. exact H.
Qed.

(** While the Neovim path is unresolved, no sequence of method calls, events
    and timers ever spawns a process or runs a command. *)
Theorem unresolved_never_launches (s : Neovim) (steps : list (World * Step))
    (Hpath : JS.truthy (NvimVersion.path (nvimBinary s)) = false) :
  filter is_launch (snd (run steps s)) = [].
Proof.
  revert s Hpath. induction steps as [|[w st] steps IH]; intros s Hpath;
    [ reflexivity | ].
  cbn [run].
  assert (Hnext : JS.truthy (NvimVersion.path (nvimBinary (step w st s))) = false).
  { rewrite step_nvimBinary. exact Hpath. }
  specialize (IH (step w st s) Hnext).
  destruct (run steps (step w st s)) as [s' t]. simpl in *.
  rewrite filter_app, IH, (step_no_launch w st s Hpath). reflexivity.
Qed.

Lemma unresolved_never_launches_witness :
  filter is_launch
    (snd (run [(externalWorld, CallNewInstance vaultAdapter);
               (externalWorld, CallOpenFile (Some todayNote));
               (externalWorld, TimerExpires);
               (externalWorld, CallClose)] unresolved)) = [].
Proof. apply (unresolved_never_launches unresolved). reflexivity. Defined.

(** Without an override, when the search finds no Neovim the constructor
    still returns an object: nothing owned, an empty path with the error
    recorded, the user notified once; that object is not configured for a
    launch. *)
Theorem constructor_nothing_found (w : World) (st : EditInNeovimSettings)
    (ad : FileSystemAdapter) (key : option string)
    (Hoverride : JS.truthy (pathToBinary st) = false)
    (Hsearch : findNvim_matches w = []) :
  instance (fst (constructor w st ad key)) = None
  /\ process (fst (constructor w st ad key)) = None
  /\ NvimVersion.path (nvimBinary (fst (constructor w st ad key))) = ""
  /\ option_map message (NvimVersion.error (nvimBinary (fst (constructor w st ad key))))
     = Some "Neovim binary not found automatically."
  /\ length (notices (snd (constructor w st ad key))) = 1
  /\ configured (fst (constructor w st ad key)) = false.
Proof.
  unfold constructor, resolveNvimBinary, reportNvimBinary, configured, notices.
  rewrite Hoverride, Hsearch. simpl.
  destruct (JS.truthy_opt (searchForBinary w (terminal st))); simpl; repeat split.
Qed.

Lemma constructor_nothing_found_witness :
  instance unresolved = None
  /\ process unresolved = None
  /\ NvimVersion.path (nvimBinary unresolved) = ""
  /\ option_map message (NvimVersion.error (nvimBinary unresolved))
     = Some "Neovim binary not found automatically."
  /\ length (notices (snd (constructor externalWorld mdSettings vaultAdapter None))) = 1
  /\ configured unresolved = false.
Proof.
  apply (constructor_nothing_found externalWorld mdSettings vaultAdapter None);
    reflexivity.
Defined.

(* ------------------------------------------------------------------------- *)
(** ** The Windows terminal is recognised by its lower-cased file name *)

Lemma lower_ascii_idempotent c : JS.lower_ascii (JS.lower_ascii c) = JS.lower_ascii c.
Proof. destruct c as [[] [] [] [] [] [] [] []]; reflexivity. Qed.

Lemma lower_ascii_backslash c :
  Ascii.eqb (JS.lower_ascii c) "\" = Ascii.eqb c "\".
Proof. destruct c as [[] [] [] [] [] [] [] []]; reflexivity. Qed.

Lemma toLowerCase_idempotent s : JS.toLowerCase (JS.toLowerCase s) = JS.toLowerCase s.
Proof.
  induction s as [|c s IH]; [ reflexivity | ].
  simpl. rewrite lower_ascii_idempotent, IH. reflexivity.
Qed.

Lemma toLowerCase_no_backslash s :
  has_char "\" (JS.toLowerCase s) = has_char "\" s.
Proof.
  induction s as [|c s IH]; [ reflexivity | ].
  simpl. rewrite lower_ascii_backslash, IH. reflexivity.
Qed.

Lemma or_else_empty s : JS.or_else (Some s) "" = s.
Proof.
  unfold JS.or_else, JS.truthy. destruct (String.eqb_spec s ""); simpl; congruence.
Qed.

Lemma terminalName_basename dir name :
  has_char "\" name = false ->
  terminalName (dir ++ "\" ++ name) = JS.toLowerCase name
  /\ terminalName name = JS.toLowerCase name.
Proof.
  intro H. unfold terminalName. split.
  - change (dir ++ "\" ++ name) with (dir ++ String "\" name).
    rewrite split_app, at_last_app by apply split_nonempty.
    rewrite (split_no_separator _ _ H). apply or_else_empty.
  - rewrite (split_no_separator _ _ H). apply or_else_empty.
Qed.

(** The argument vector and shell mode depend on the terminal path only
    through its last backslash-separated component, and on that only up to
    letter case: on every platform a terminal given with its directory and in
    any case gets the plan of its bare lower-case name. *)
Theorem spawnPlan_by_file_name (w : World) (dir name nvimPath listenArg : string)
    (s : Neovim)
    (Hname : has_char "\" name = false) :
  result (spawnPlan w (dir ++ "\" ++ name) nvimPath listenArg s)
  = result (spawnPlan w (JS.toLowerCase name) nvimPath listenArg s).
Proof.
  destruct (terminalName_basename dir name Hname) as [H1 _].
  assert (Hlow : has_char "\" (JS.toLowerCase name) = false)
    by (rewrite toLowerCase_no_backslash; exact Hname).
  destruct (terminalName_basename EmptyString (JS.toLowerCase name) Hlow) as [_ H2].
  rewrite toLowerCase_idempotent in H2.
  unfold terminalName in H1, H2.
  unfold spawnPlan, bind, ret, console_log, console_warn, emit, result.
  destruct (platform w =? "win32"); [ | reflexivity ].
  rewrite H1, H2.
  repeat match goal with
         | |- context [if ?b then _ else _] => destruct b
         end; reflexivity.
Qed.

Lemma spawnPlan_by_file_name_witness :
  result (spawnPlan windowsWorld ("C:\Tools" ++ "\" ++ "WT.exe") "nvim" "127.0.0.1:7777" idle)
  = result (spawnPlan windowsWorld (JS.toLowerCase "WT.exe") "nvim" "127.0.0.1:7777" idle).
Proof.
  apply (spawnPlan_by_file_name windowsWorld "C:\Tools" "WT.exe"). reflexivity.
Defined.

(* ------------------------------------------------------------------------- *)
(** ** Launch, then open; what stderr decides *)

(** After a launch that went through, a supported file is opened in the
    owned instance: one remote command with the configured address and the
    file's full path, and no port probe, whatever the port would answer. *)
Theorem launch_then_open (w w' : World) (ad : FileSystemAdapter) (s : Neovim)
    (cp : ChildProcess) (file : TFile.t)
    (Hidle : process s = None) (Hconf : configured s = true)
    (Hspawn : launchAnswer w ad s = Returned cp)
    (Hpid : pid cp <> None)
    (Hattach : attach_fails w cp = None)
    (Hsupported : result (fileTypeFilter file s) = true) :
  execFiles (trace (openFile w' (Some file) (state_after (newInstance w ad s))))
  = [remoteCommand s file]
  /\ filter is_probe (trace (openFile w' (Some file) (state_after (newInstance w ad s))))
     = [].
Proof.
  destruct (newInstance_configured w ad s Hidle Hconf) as [Hs _].
  rewrite Hs, Hspawn, Hattach.
  destruct (pid cp); [ clear Hs | contradiction ].
  unfold configured in Hconf. apply andb_true_iff in Hconf. destruct Hconf as [_ Hnv].
  run_openFile. simpl in *.
  filter_cases file s; rewrite Hnv; simpl;
    match goal with
    | |- context [execFile w' ?a ?b] => destruct (execFile w' a b)
    end; split; reflexivity.
Qed.

Lemma launch_then_open_witness :
  execFiles (trace (openFile externalWorld (Some todayNote)
                      (state_after (newInstance quietWorld vaultAdapter idle))))
  = [ExecFile "/usr/bin/nvim"
       ["--server"; "127.0.0.1:7777"; "--remote"; "/vault/notes/today.md"]]
  /\ filter is_probe (trace (openFile externalWorld (Some todayNote)
                               (state_after (newInstance quietWorld vaultAdapter idle))))
     = [].
Proof.
  apply (launch_then_open quietWorld externalWorld vaultAdapter idle
           {| pid := Some 4242%N |} todayNote);
    [ reflexivity | reflexivity | reflexivity | discriminate | reflexivity | reflexivity ].
Defined.

(** When the remote command fails for another reason than a missing
    executable and its stderr mentions [ECONNREFUSED] anywhere, the user is
    told that the server at the listen address could not be reached. *)
Theorem execFileCallback_connection_refused
    (nvimPath listenAddress absolutePath : string) (args : list string)
    (file : TFile.t) (e : JsError) (stdout before rest : string) (s : Neovim)
    (Hcode : has_code e "ENOENT" = false) :
  notices (trace (execFileCallback nvimPath listenAddress absolutePath args file
                    (Some e) stdout (before ++ "ECONNREFUSED" ++ rest) s))
  = [Notice ("Could not connect to Neovim server at " ++ listenAddress
             ++ ". Is it running?") 10000].
Proof.
  assert (Hinc : JS.str_includes (before ++ "ECONNREFUSED" ++ rest) "ECONNREFUSED" = true)
    by (apply str_includes_iff; eauto).
  assert (Htruthy : JS.truthy (before ++ "ECONNREFUSED" ++ rest) = true)
    by (destruct before; reflexivity).
  remember (before ++ "ECONNREFUSED" ++ rest) as stderr eqn:E. clear E.
  unfold execFileCallback, bind, console_error, new_Notice, emit, trace, notices.
  simpl. rewrite Hcode, Htruthy, Hinc. reflexivity.
Qed.

Lemma execFileCallback_connection_refused_witness :
  notices (trace (execFileCallback "/usr/bin/nvim" "127.0.0.1:7777"
                    "/vault/notes/today.md" [] todayNote
                    (Some transportDown) ""
                    ("E247: " ++ "ECONNREFUSED" ++ " 127.0.0.1:7777") idle))
  = [Notice ("Could not connect to Neovim server at " ++ "127.0.0.1:7777"
             ++ ". Is it running?") 10000].
Proof.
  apply (execFileCallback_connection_refused "/usr/bin/nvim" "127.0.0.1:7777"
           "/vault/notes/today.md" [] todayNote transportDown "" "E247: "
           " 127.0.0.1:7777" idle).
  reflexivity.
Defined.
